(** * currency_converter: a shallow embedding of the conversion core

    The development follows the Python modules of the repository:

    - [converters/converters.py]: the exception classes, [ConverterCommon]
      (currency directory and its cache), [ConverterXE] (scrape strategy) and
      [ConverterOER] (rate-table strategy);
    - [currency_converter.py]: [App] and the entry point [main];
    - [web_api.py]: the view [convert], which hands the query arguments
      to [main].

    Python objects are records, methods are computations in a small
    state-and-exception monad whose state is the receiver ([self]) together
    with the outside world (clock, files, remote services).  Amounts, rates
    and clock readings are binary64 floats, as in CPython.  The two
    functions that call themselves, [ConverterOER.convert] and [main], take a
    budget for the depth of their calls; that a budget of two or three is
    always enough is proved, not assumed.  The world carries a trace of the
    strategy calls and runs made, which the program does not read: it is
    there to state how often something is called. *)

From Stdlib Require Import ZArith String Ascii List Bool Floats Lia.
Import ListNotations.

Set Implicit Arguments.

Local Open Scope string_scope.
Local Open Scope list_scope.

(* ===================================================================== *)
(** * Python runtime: exceptions, outcomes, the method monad             *)
(* ===================================================================== *)

(** The exceptions that occur in the two modules.  [ConversionError] is the
    class of converters.py (its [type] attribute is the payload);
    [RequestError] stands for whatever [requests] or the HTML parser raise. *)
Inductive exn : Type :=
| ConversionError (type : string)
| FileNotFoundError
| JSONDecodeError
| KeyError (key : string)
| TypeError
| ValueError
| ZeroDivisionError
| UnboundLocalError
| RequestError.

(** Result of running a piece of code: a value, a raised exception, or the
    recursion budget of the model ran out (never caught by [except]). *)
Inductive outcome (A : Type) : Type :=
| Ret (a : A)
| Raise (e : exn)
| OutOfFuel.
Arguments Raise {A} e.
Arguments OutOfFuel {A}.

(** [except ConversionError] and the test [error.type == t]. *)
Definition is_ConversionError (e : exn) : bool :=
  match e with ConversionError _ => true | _ => false end.

Definition error_type_is (t : string) (e : exn) : bool :=
  match e with ConversionError type => String.eqb type t | _ => false end.

(** ** Dictionaries

    A Python [dict] with string keys: insertion-ordered, assignment to an
    existing key keeps its position. *)
Definition dict (V : Type) : Type := list (string * V).

Fixpoint dict_get {V} (d : dict V) (k : string) : option V :=
  match d with
  | [] => None
  | (k', v) :: d' => if String.eqb k' k then Some v else dict_get d' k
  end.

Fixpoint dict_set {V} (d : dict V) (k : string) (v : V) : dict V :=
  match d with
  | [] => [(k, v)]
  | (k', v') :: d' =>
      if String.eqb k' k then (k', v) :: d' else (k', v') :: dict_set d' k v
  end.

Definition dict_mem {V} (d : dict V) (k : string) : bool :=
  match dict_get d k with Some _ => true | None => false end.

Definition dict_keys {V} (d : dict V) : list string := map fst d.

(** ** Floats

    [x / y] on Python floats raises [ZeroDivisionError] when [y] is zero (of
    either sign); multiplication never raises. *)
Definition float_truediv (x y : float) : outcome float :=
  if PrimFloat.eqb y 0%float then Raise ZeroDivisionError
  else Ret (PrimFloat.div x y).

(** The built-in [round(x, 2)] on a float: non-finite values are returned
    unchanged; otherwise the exact value of [x] is rounded to two decimal
    places, ties to even, and the double nearest to that decimal is returned.
    [nearest_ratio n d] is the double nearest to [n / d] for positive [n],
    [d] (ties to even), computed on integers. *)
Definition round_half_even_div (n d : Z) : Z :=
  let q := (n / d)%Z in
  let r := (n mod d)%Z in
  if (d <? 2 * r)%Z then (q + 1)%Z
  else if (2 * r =? d)%Z then (if Z.odd q then q + 1 else q)%Z
  else q.

Definition nearest_ratio (sign : bool) (n d : Z) : float :=
  if (n <=? 0)%Z then (if sign then (-0)%float else 0%float)
  else
    (* 2^52 < n * 2^k / d < 2^54; one step down brings the quotient below
       2^53, so the single rounding yields a 53-bit mantissa *)
    let k := (53 + Z.log2 d - Z.log2 n)%Z in
    let num := if (0 <=? k)%Z then (n * 2 ^ k)%Z else n in
    let den := if (0 <=? k)%Z then d else (d * 2 ^ (- k))%Z in
    let q := (num / den)%Z in
    let k' := if (q <? 2 ^ 53)%Z then k else (k - 1)%Z in
    let num' := if (0 <=? k')%Z then (n * 2 ^ k')%Z else n in
    let den' := if (0 <=? k')%Z then d else (d * 2 ^ (- k'))%Z in
    let m := round_half_even_div num' den' in
    match m with
    | Zpos p => SF2Prim (S754_finite sign p (- k'))
    | _ => 0%float
    end.

Definition py_round2 (x : float) : float :=
  match Prim2SF x with
  | S754_finite s m e =>
      if (0 <=? e)%Z then x
      else nearest_ratio s (round_half_even_div (100 * Zpos m) (2 ^ (- e))) 100
  | _ => x
  end.

(** ** Strings

    [a in b] on strings, and [repr] of a string as it appears inside
    [str(dict)].  Bytes above 127 (UTF-8 of printable non-ASCII characters,
    such as currency symbols) are copied as they are. *)
Fixpoint str_contains (pat s : string) : bool :=
  String.prefix pat s ||
  match s with
  | EmptyString => false
  | String _ s' => str_contains pat s'
  end.

Fixpoint has_char (c : ascii) (s : string) : bool :=
  match s with
  | EmptyString => false
  | String c' s' => Ascii.eqb c c' || has_char c s'
  end.

Definition hex_digit (n : nat) : ascii :=
  nth n (list_ascii_of_string "0123456789abcdef") "0"%char.

Fixpoint repr_body (quote : ascii) (s : string) : string :=
  match s with
  | EmptyString => EmptyString
  | String c s' =>
      let n := nat_of_ascii c in
      let rest := repr_body quote s' in
      if Ascii.eqb c "\"%char then String "\" (String "\" rest)
      else if Ascii.eqb c quote then String "\" (String c rest)
      else if Nat.eqb n 9 then String "\" (String "t" rest)
      else if Nat.eqb n 10 then String "\" (String "n" rest)
      else if Nat.eqb n 13 then String "\" (String "r" rest)
      else if (Nat.ltb n 32 || Nat.eqb n 127)%bool then
        String "\" (String "x"
          (String (hex_digit (n / 16)) (String (hex_digit (n mod 16)) rest)))
      else String c rest
  end.

Definition double_quote : ascii := ascii_of_nat 34.

Definition py_repr (s : string) : string :=
  let quote :=
    if (has_char "'"%char s && negb (has_char double_quote s))%bool
    then double_quote else "'"%char in
  String quote (repr_body quote s ++ String quote EmptyString).

(* ===================================================================== *)
(** * Data of the two modules and the outside world                      *)
(* ===================================================================== *)

(** A value of the currency directory: [{'symbol': ..., 'name': ...}]. *)
Record CurrencyEntry : Type := mkEntry { symbol : string; name : string }.

(** The [params] dictionary handed to a strategy's [convert]. *)
Record Params : Type := mkParams {
  amount : float;
  in_currency : string;
  out_currency : string
}.

(** The [params] dictionary handed to [main]; [None] for the output
    currency means that none was given. *)
Record Request : Type := mkRequest {
  req_amount : float;
  req_in_currency : string;
  req_out_currency : option string
}.

(** What [json.load] makes of a cache file.  The [timestamp] member may be
    absent or not a number, the payload member may be absent. *)
Inductive Timestamp : Type :=
| TsNumber (t : float)
| TsNotNumber.

Inductive JSONCache (P : Type) : Type :=
| NotObject
| Object (timestamp : option Timestamp) (payload : option P).
Arguments NotObject {P}.

Inductive CacheFile (P : Type) : Type :=
| NoFile                       (* open raises FileNotFoundError *)
| NotJSON                      (* json.load raises JSONDecodeError *)
| Parsed (cache : JSONCache P).
Arguments NoFile {P}.
Arguments NotJSON {P}.

(** The parameters of an XE request and what [get_response] extracts from
    the page: the amount and the two currency codes the service echoes. *)
Record XEParams : Type := mkXEParams {
  Amount : float;
  From : string;
  To : string
}.

Record XEResponse : Type := mkXEResponse {
  converted : float;
  returned_currs : string * string
}.

(** The JSON answer of the OER service. *)
Record OERResponse : Type := mkOERResponse {
  resp_timestamp : float;
  resp_rates : dict float
}.

(** config.json *)
Record OERConfig : Type := mkOERConfig {
  cfg_app_id : string;
  cfg_rates_expiration : float
}.

Record Config : Type := mkConfig {
  cfg_converter : string;
  cfg_verbosity : bool;
  cfg_currencies_expiration : float;
  cfg_oer_config : OERConfig;
  cfg_override_currencies : option (list string);   (* None: false *)
  cfg_log_filename : option string                  (* None: false *)
}.

(** Observable calls, recorded in order (newest first): each entry of a
    strategy's [convert], and each [app.run()] of [main] with the name of
    the strategy the [App] holds and the request [main] was given. *)
Inductive Event : Type :=
| EvConvert (strategy : string) (p : Params)
| EvRun (strategy : string) (request : Request).

(** The world outside the process.  A remote service answers a given request
    the same way throughout one run, with an answer that has the members the
    code reads, or not at all: [None] is any failure of the request or of
    decoding its answer.  [clock] lists the successive readings of
    [time.time()].  Files are written without error; what is printed to the
    console is not kept. *)
Record World : Type := mkWorld {
  clock : nat -> float;
  ticks : nat;
  config_json : option Config;
  cache_currencies_json : CacheFile (dict CurrencyEntry);
  cache_rates_json : CacheFile (dict float);
  remote_currencies : option (dict CurrencyEntry);
  remote_rates : string -> option OERResponse;
  remote_xe : XEParams -> option XEResponse;
  trace : list Event
}.

Definition set_ticks (n : nat) (w : World) : World :=
  mkWorld (clock w) n (config_json w) (cache_currencies_json w)
          (cache_rates_json w) (remote_currencies w) (remote_rates w)
          (remote_xe w) (trace w).

Definition set_cache_currencies (f : CacheFile (dict CurrencyEntry))
           (w : World) : World :=
  mkWorld (clock w) (ticks w) (config_json w) f
          (cache_rates_json w) (remote_currencies w) (remote_rates w)
          (remote_xe w) (trace w).

Definition set_cache_rates (f : CacheFile (dict float)) (w : World) : World :=
  mkWorld (clock w) (ticks w) (config_json w) (cache_currencies_json w)
          f (remote_currencies w) (remote_rates w)
          (remote_xe w) (trace w).

Definition add_event (ev : Event) (w : World) : World :=
  mkWorld (clock w) (ticks w) (config_json w) (cache_currencies_json w)
          (cache_rates_json w) (remote_currencies w) (remote_rates w)
          (remote_xe w) (ev :: trace w).

(** ** The method monad

    A method runs on its receiver and the world, and leaves both changed
    even when it raises. *)
Definition M (Self A : Type) : Type :=
  Self -> World -> outcome A * Self * World.

Definition ret {Self A} (a : A) : M Self A :=
  fun self w => (Ret a, self, w).

Definition raise {Self A} (e : exn) : M Self A :=
  fun self w => (Raise e, self, w).

Definition out_of_fuel {Self A} : M Self A :=
  fun self w => (OutOfFuel, self, w).

Definition bind {Self A B} (m : M Self A) (k : A -> M Self B) : M Self B :=
  fun self w =>
    match m self w with
    | (Ret a, self', w') => k a self' w'
    | (Raise e, self', w') => (Raise e, self', w')
    | (OutOfFuel, self', w') => (OutOfFuel, self', w')
    end.

Declare Scope py_scope.
Delimit Scope py_scope with py.
Notation "x <- m ;; k" := (bind m (fun x => k))
  (at level 61, m at next level, right associativity) : py_scope.
Notation "m ;; k" := (bind m (fun _ => k))
  (at level 61, right associativity) : py_scope.
Local Open Scope py_scope.

(** [try: body  except <caught>: handler]. *)
Definition try_except {Self A} (body : M Self A)
           (caught : exn -> bool) (handler : exn -> M Self A) : M Self A :=
  fun self w =>
    match body self w with
    | (Raise e, self', w') =>
        if caught e then handler e self' w' else (Raise e, self', w')
    | r => r
    end.

Definition get_self {Self} : M Self Self :=
  fun self w => (Ret self, self, w).

Definition put_self {Self} (s : Self) : M Self unit :=
  fun _ w => (Ret tt, s, w).

Definition get_world {Self} : M Self World :=
  fun self w => (Ret w, self, w).

Definition modify_world {Self} (f : World -> World) : M Self unit :=
  fun self w => (Ret tt, self, f w).

(** Lift the outcome of a pure expression that may raise. *)
Definition lift_outcome {Self A} (o : outcome A) : M Self A :=
  fun self w => (o, self, w).

(** Run a method of another object [obj]: the caller's own state is kept,
    the updated object is handed to [store]. *)
Definition call_on {Self Obj A} (obj : Self -> Obj)
           (store : Obj -> Self -> Self) (m : M Obj A) : M Self A :=
  fun self w =>
    let '(r, o', w') := m (obj self) w in (r, store o' self, w').

(** [time.time()] *)
Definition time_time {Self} : M Self float :=
  fun self w => (Ret (clock w (ticks w)), self, set_ticks (S (ticks w)) w).

(** [d[k]] *)
Definition getitem {Self V} (d : dict V) (k : string) : M Self V :=
  match dict_get d k with
  | Some v => ret v
  | None => raise (KeyError k)
  end.

(** [with open(path) as f: cache = json.load(f)] *)
Definition json_load {Self P} (file : CacheFile P) : M Self (JSONCache P) :=
  match file with
  | NoFile => raise FileNotFoundError
  | NotJSON => raise JSONDecodeError
  | Parsed cache => ret cache
  end.

(** [cache['timestamp']] and [cache[<payload key>]] on a parsed cache. *)
Definition cache_timestamp {Self P} (cache : JSONCache P) : M Self Timestamp :=
  match cache with
  | NotObject => raise TypeError
  | Object None _ => raise (KeyError "timestamp")
  | Object (Some ts) _ => ret ts
  end.

Definition cache_payload {Self P} (key : string) (cache : JSONCache P)
  : M Self P :=
  match cache with
  | NotObject => raise TypeError
  | Object _ None => raise (KeyError key)
  | Object _ (Some p) => ret p
  end.

(** [now - ts] where [ts] came out of JSON. *)
Definition float_sub_json {Self} (now : float) (ts : Timestamp) : M Self float :=
  match ts with
  | TsNumber t => ret (PrimFloat.sub now t)
  | TsNotNumber => raise TypeError
  end.

(** [obj = Class(...)]: run the constructor body on the blank object. *)
Definition construct {Self Obj} (blank : Obj) (init : M Obj unit) : M Self Obj :=
  fun self w =>
    match init blank w with
    | (Ret _, obj, w') => (Ret obj, self, w')
    | (Raise e, _, w') => (Raise e, self, w')
    | (OutOfFuel, _, w') => (OutOfFuel, self, w')
    end.

(** Where the first [try] of a loader ends: in its [else] clause with the
    cache read, in [except ExpiredError] (raised by the last statement of the
    [try] body, so [cache] is bound), or in the clause for a missing or
    corrupted file. *)
Inductive CacheCheck (P : Type) : Type :=
| Fresh (cache : JSONCache P)
| Expired (cache : JSONCache P)
| Missing.
Arguments Missing {P}.

(** [except (FileNotFoundError, KeyError, TypeError,
            json.decoder.JSONDecodeError)] *)
Definition corrupted_cache_error (e : exn) : bool :=
  match e with
  | FileNotFoundError | KeyError _ | TypeError | JSONDecodeError => true
  | _ => false
  end.

(** [except Exception] *)
Definition any_exception (e : exn) : bool := true.

(* ===================================================================== *)
(** * converters.py                                                      *)
(* ===================================================================== *)

Module ConverterCommon.

Record t : Type := mk {
  verbosity : bool;
  curr_exp : float;
  currencies : dict CurrencyEntry
}.

Definition set_currencies (d : dict CurrencyEntry) (self : t) : t :=
  mk (verbosity self) (curr_exp self) d.

(** [get_currencies]: one request; every item of the answer is assigned
    into [self.currencies] as [{'symbol': ..., 'name': ...}].  An answer with
    an item that lacks a member counts as a failed request: what the loop
    assigned before it is replaced or dropped by [load_currencies]. *)
Definition get_currencies : M t unit :=
  w <- get_world ;;
  match remote_currencies w with
  | None => raise RequestError
  | Some response =>
      self <- get_self ;;
      put_self
        (set_currencies
           (fold_left
              (fun d kv =>
                 dict_set d (fst kv)
                          (mkEntry (symbol (snd kv)) (name (snd kv))))
              response (currencies self))
           self)
  end.

(** [save_currencies]: the file is rewritten from scratch with the clock
    reading taken now and the directory held in memory. *)
Definition save_currencies : M t unit :=
  now <- time_time ;;
  self <- get_self ;;
  modify_world
    (set_cache_currencies
       (Parsed (Object (Some (TsNumber now)) (Some (currencies self))))).

(** [load_currencies]: the cache is used when it parses and is recent;
    otherwise the directory is fetched and saved; when that fails an
    outdated cache is used, and without one the error is raised. *)
Definition load_currencies : M t unit :=
  (* missing = False; first try statement *)
  chk <- try_except
           (w <- get_world ;;
            cache <- json_load (cache_currencies_json w) ;;
            now <- time_time ;;
            ts <- cache_timestamp cache ;;
            time_diff <- float_sub_json now ts ;;
            self <- get_self ;;
            if PrimFloat.ltb (curr_exp self) time_diff
            then ret (Expired cache)              (* raise ExpiredError *)
            else ret (Fresh cache))
           corrupted_cache_error
           (fun _ => ret Missing) ;;              (* missing = True *)
  match chk with
  | Fresh cache =>
      (* else: self.currencies = cache['currencies']; return *)
      payload <- cache_payload "currencies" cache ;;
      self <- get_self ;;
      put_self (set_currencies payload self)
  | _ =>
      (* second try statement *)
      fetched <- try_except
                   (get_currencies ;; ret true)
                   any_exception
                   (fun _ =>
                      match chk with
                      | Missing => raise (ConversionError "no_currs_data")
                      | Expired cache | Fresh cache =>
                          payload <- cache_payload "currencies" cache ;;
                          self <- get_self ;;
                          put_self (set_currencies payload self) ;;
                          ret false
                      end) ;;
      if fetched : bool then save_currencies else ret tt
  end.

(** [__init__] *)
Definition init {Self} (verbosity : bool) (curr_exp : float) : M Self t :=
  construct (mk verbosity (PrimFloat.mul curr_exp 60%float) [])
            load_currencies.

(** One record per currency, in directory order. *)
Definition list_currencies : M t (list (string * string * string)) :=
  self <- get_self ;;
  ret (map (fun kv => (fst kv, symbol (snd kv), name (snd kv)))
           (currencies self)).

End ConverterCommon.

Module ConverterXE.

Record t : Type := mk {
  common : ConverterCommon.t;
  params : option XEParams            (* None: the initial {} *)
}.

Definition name : string := "XE".

Definition init {Self} (verbosity : bool) (curr_exp : float) : M Self t :=
  c <- ConverterCommon.init verbosity curr_exp ;;
  ret (mk c None).

(** [get_response]: one request with [self.params]; any failure of the
    request or of locating the three fields in the page is an exception.
    [convert] assigns [self.params] before it calls this method. *)
Definition get_response : M t XEResponse :=
  self <- get_self ;;
  w <- get_world ;;
  match params self with
  | None => raise RequestError
  | Some p =>
      match remote_xe w p with
      | None => raise RequestError
      | Some response => ret response
      end
  end.

(** [check_response] returns [False] ([Some false]) when an echoed code
    differs from the requested one, and falls off its end (returns
    [None]) otherwise. *)
Definition check_response (response : XEResponse) : M t (option bool) :=
  self <- get_self ;;
  match params self with
  | None => raise (KeyError "From")
  | Some p =>
      if (negb (String.eqb (fst (returned_currs response)) (From p))
          || negb (String.eqb (snd (returned_currs response)) (To p)))%bool
      then ret (Some false)
      else ret None
  end.

Definition is_not_False (r : option bool) : bool :=
  match r with Some false => false | _ => true end.

Definition convert (p : Params) : M t float :=
  modify_world (add_event (EvConvert name p)) ;;
  self <- get_self ;;
  put_self (mk (common self)
               (Some (mkXEParams (amount p) (in_currency p) (out_currency p)))) ;;
  response <- try_except get_response any_exception
                         (fun _ => raise (ConversionError "xe_error")) ;;
  checked <- check_response response ;;
  if is_not_False checked
  then ret (converted response)
  else raise (ConversionError "unsupported").

End ConverterXE.

Module ConverterOER.

Record t : Type := mk {
  common : ConverterCommon.t;
  app_id : string;
  rates_exp : float;
  rates : option (dict float)
}.

Definition name : string := "OER".

Definition set_rates (r : dict float) (self : t) : t :=
  mk (common self) (app_id self) (rates_exp self) (Some r).

Definition init {Self} (config : OERConfig) (verbosity : bool)
           (curr_exp : float) : M Self t :=
  c <- ConverterCommon.init verbosity curr_exp ;;
  ret (mk c (cfg_app_id config)
          (PrimFloat.mul (cfg_rates_expiration config) 60%float) None).

(** [save_rates(response)]: the file is rewritten from scratch with the
    two members of the answer. *)
Definition save_rates (response : OERResponse) : M t unit :=
  modify_world
    (set_cache_rates
       (Parsed (Object (Some (TsNumber (resp_timestamp response)))
                       (Some (resp_rates response))))).

(** [load_rates]: the cache is used when it parses and is recent; otherwise
    the rates are fetched and saved, and a failed fetch is an error. *)
Definition load_rates : M t unit :=
  chk <- try_except
           (w <- get_world ;;
            cache <- json_load (cache_rates_json w) ;;
            now <- time_time ;;
            ts <- cache_timestamp cache ;;
            time_diff <- float_sub_json now ts ;;
            self <- get_self ;;
            if PrimFloat.ltb (rates_exp self) time_diff
            then ret (Expired cache)              (* raise ExpiredError *)
            else ret (Fresh cache))
           corrupted_cache_error
           (fun _ => ret Missing) ;;
  match chk with
  | Fresh cache =>
      (* else: self.rates = cache['rates']; return *)
      payload <- cache_payload "rates" cache ;;
      self <- get_self ;;
      put_self (set_rates payload self)
  | _ =>
      response <- try_except
                    (self <- get_self ;;
                     w <- get_world ;;
                     match remote_rates w (app_id self) with
                     | None => raise RequestError
                     | Some response => ret response
                     end)
                    any_exception
                    (fun _ => raise (ConversionError "oer_error")) ;;
      (* else: *)
      self <- get_self ;;
      put_self (set_rates (resp_rates response) self) ;;
      save_rates response
  end.

(** [self.rates[code]]; subscripting [None] is a [TypeError]. *)
Definition rate (code : string) : M t float :=
  self <- get_self ;;
  match rates self with
  | None => raise TypeError
  | Some r => getitem r code
  end.

Definition is_KeyError (e : exn) : bool :=
  match e with KeyError _ => true | _ => false end.

(** [convert] calls itself; [fuel] bounds the depth of the calls. *)
Fixpoint convert (fuel : nat) (p : Params) : M t float :=
  match fuel with
  | O => out_of_fuel
  | S fuel' =>
      modify_world (add_event (EvConvert name p)) ;;
      self <- get_self ;;
      (match rates self with
       | None => load_rates
       | Some _ => ret tt
       end) ;;
      try_except
        (if String.eqb (in_currency p) "USD" then
           r <- rate (out_currency p) ;;
           ret (PrimFloat.mul (amount p) r)
         else if String.eqb (out_currency p) "USD" then
           r <- rate (in_currency p) ;;
           lift_outcome (float_truediv (amount p) r)
         else
           r <- rate (in_currency p) ;;
           usd <- lift_outcome (float_truediv (amount p) r) ;;
           convert fuel' (mkParams usd "USD" (out_currency p)))
        is_KeyError
        (fun _ => raise (ConversionError "unsupported"))
  end.

End ConverterOER.

(* ===================================================================== *)
(** * currency_converter.py                                              *)
(* ===================================================================== *)

(** The object [App] holds in [self.converter]: either strategy. *)
Inductive Converter : Type :=
| XE (x : ConverterXE.t)
| OER (o : ConverterOER.t).

Definition converter_common (c : Converter) : ConverterCommon.t :=
  match c with
  | XE x => ConverterXE.common x
  | OER o => ConverterOER.common o
  end.

Definition converter_currencies (c : Converter) : dict CurrencyEntry :=
  ConverterCommon.currencies (converter_common c).

Definition converter_name (c : Converter) : string :=
  match c with
  | XE _ => ConverterXE.name
  | OER _ => ConverterOER.name
  end.

(** [self.converter.convert(params)], dispatched on the object's class. *)
Definition converter_convert (fuel : nat) (p : Params) : M Converter float :=
  fun c w =>
    match c with
    | XE x =>
        let '(r, x', w') := ConverterXE.convert p x w in (r, XE x', w')
    | OER o =>
        let '(r, o', w') := ConverterOER.convert fuel p o w in (r, OER o', w')
    end.

Definition converter_list_currencies
  : M Converter (list (string * string * string)) :=
  fun c w =>
    let '(r, _, w') := ConverterCommon.list_currencies (converter_common c) w in
    (r, c, w').

(** The second argument of [check_currency]. *)
Inductive Which : Type := which_in | which_out.   (* 'in', 'out' *)

(** What [App.run] returns: the conversion record or the currency list. *)
Record Conversion : Type := mkConversion {
  input_amount : float;
  input_currency : string;
  output : dict float
}.

Inductive RunResult : Type :=
| RunConversion (c : Conversion)
| RunCurrencies (l : list (string * string * string)).

Module App.

(** [self.out_currs]: the checked output currency as [__init__] leaves it,
    or the list of targets once [get_conversion] has replaced it. *)
Inductive OutCurrs : Type :=
| OutOne (code : option string)
| OutMany (targets : list string).

(** [amount] and [in_currency] are [self.params['amount']] and
    [self.params['in_currency']]; [self.params['out_currency']] is the value
    [out_currs] starts with. *)
Record t : Type := mk {
  config : Config;
  converter : Converter;
  list_currs : bool;
  amount : float;
  in_currency : string;
  out_currs : OutCurrs
}.

Definition set_converter_field (c : Converter) (self : t) : t :=
  mk (config self) c (list_currs self) (amount self) (in_currency self)
     (out_currs self).

Definition set_out_currs (o : OutCurrs) (self : t) : t :=
  mk (config self) (converter self) (list_currs self) (amount self)
     (in_currency self) o.

(** [load_config]: [None] is a missing or corrupted config.json. *)
Definition load_config {Self} : M Self Config :=
  w <- get_world ;;
  match config_json w with
  | None => raise FileNotFoundError
  | Some c => ret c
  end.

Definition set_converter {Self} (config : Config)
           (override_converter : string) : M Self Converter :=
  if str_contains "xe" override_converter then
    x <- ConverterXE.init (cfg_verbosity config)
                          (cfg_currencies_expiration config) ;;
    ret (XE x)
  else if str_contains "oer" override_converter then
    o <- ConverterOER.init (cfg_oer_config config) (cfg_verbosity config)
                           (cfg_currencies_expiration config) ;;
    ret (OER o)
  else if String.eqb (cfg_converter config) "ConverterXE" then
    x <- ConverterXE.init (cfg_verbosity config)
                          (cfg_currencies_expiration config) ;;
    ret (XE x)
  else
    o <- ConverterOER.init (cfg_oer_config config) (cfg_verbosity config)
                           (cfg_currencies_expiration config) ;;
    ret (OER o).

(** [str(values)] for a directory value, and the symbol test
    ["'symbol': '{}'".format(string) in str(values)]. *)
Definition str_entry (values : CurrencyEntry) : string :=
  "{'symbol': " ++ py_repr (symbol values) ++ ", 'name': "
                ++ py_repr (name values) ++ "}".

Definition symbol_matches (string : string) (values : CurrencyEntry) : bool :=
  str_contains ("'symbol': '" ++ string ++ "'") (str_entry values).

Fixpoint find_symbol (string : string) (items : dict CurrencyEntry)
  : option String.string :=
  match items with
  | [] => None
  | (code, values) :: items' =>
      if symbol_matches string values then Some code
      else find_symbol string items'
  end.

(** [check_currency(string, which)] on the directory of the converter. *)
Definition check_currency (currencies : dict CurrencyEntry)
           (string : option string) (which : Which)
  : outcome (option String.string) :=
  match string with
  | None => Ret None
  | Some s =>
      if dict_mem currencies s then Ret (Some s)
      else
        match find_symbol s currencies with
        | Some code => Ret (Some code)
        | None =>
            match which with
            | which_out => Ret None
            | which_in => Raise ValueError
            end
        end
  end.

(** [__init__].  With [list_currs] the parameters are not looked at; the
    fields they would fill are left at the request's raw values.  For the
    input currency [check_currency] is given a string, so it returns a
    code or raises. *)
Definition init {Self} (params : Request) (override_converter : string)
           (list_currs : bool) : M Self t :=
  config <- load_config ;;
  converter <- set_converter config override_converter ;;
  if list_currs then
    ret (mk config converter list_currs (req_amount params)
            (req_in_currency params) (OutOne None))
  else
    in_c <- lift_outcome
              (check_currency (converter_currencies converter)
                              (Some (req_in_currency params)) which_in) ;;
    out_c <- lift_outcome
               (check_currency (converter_currencies converter)
                               (req_out_currency params) which_out) ;;
    match in_c with
    | Some code =>
        ret (mk config converter list_currs (req_amount params) code
                (OutOne out_c))
    | None => raise TypeError
    end.

(** The [for curr in self.out_currs] loop of [get_conversion]. *)
Fixpoint conversion_loop (fuel : nat) (targets : list string)
         (converted : dict float) : M t (dict float) :=
  match targets with
  | [] => ret converted
  | curr :: rest =>
      self <- get_self ;;
      if String.eqb curr (in_currency self) then
        conversion_loop fuel rest (dict_set converted curr (amount self))
      else
        r <- try_except
               (v <- call_on converter set_converter_field
                       (converter_convert fuel
                          (mkParams (amount self) (in_currency self) curr)) ;;
                ret (Some v))
               is_ConversionError
               (fun error =>
                  if error_type_is "unsupported" error
                  then ret None                             (* continue *)
                  else raise error) ;;
        match r with
        | Some v =>
            (* converted[curr] = v, then converted[curr] = round(v, 2) *)
            conversion_loop fuel rest
              (dict_set (dict_set converted curr v) curr (py_round2 v))
        | None => conversion_loop fuel rest converted
        end
  end.

Definition get_conversion (fuel : nat) : M t (dict float) :=
  self <- get_self ;;
  targets <-
    match out_currs self with
    | OutOne (Some code) => ret [code]
    | OutOne None =>
        match cfg_override_currencies (config self) with
        | None => ret (dict_keys (converter_currencies (converter self)))
        | Some override => ret override
        end
    | OutMany _ => raise TypeError   (* a second call; [run] makes one *)
    end ;;
  self <- get_self ;;
  put_self (set_out_currs (OutMany targets) self) ;;
  conversion_loop fuel targets [].

(** [log]: one clock reading when a log file is configured. *)
Definition log (record : Conversion) : M t unit :=
  self <- get_self ;;
  match cfg_log_filename (config self) with
  | None => ret tt
  | Some _ => time_time ;; ret tt
  end.

(** [run], as the web layer sees it (the module is imported, so the
    currency list is returned as a list). *)
Definition run (fuel : nat) : M t RunResult :=
  self <- get_self ;;
  if list_currs self then
    curr_list <- call_on converter set_converter_field
                   converter_list_currencies ;;
    ret (RunCurrencies curr_list)
  else
    converted <- get_conversion fuel ;;
    let output := mkConversion (amount self) (in_currency self) converted in
    log output ;;
    ret (RunConversion output).

End App.

(** The second element of the list [main] returns. *)
Inductive Output : Type :=
| Message (s : string)
| Json (r : RunResult)                    (* json.dumps(output, indent=4) *)
| Plain (r : RunResult)
| Returned (code : Z) (o : Output).       (* a list [main] itself returned *)

(** A call of a method on a local object of the caller. *)
Definition with_object {Self Obj A} (obj : Obj) (m : M Obj A) : M Self A :=
  fun self w => let '(r, _, w') := m obj w in (r, self, w').

Definition init_error (e : exn) : bool :=
  match e with
  | FileNotFoundError | JSONDecodeError | ValueError | ConversionError _ => true
  | _ => false
  end.

(** [main] with [CLI=False]; it calls itself for the retry, [fuel] bounds
    the depth of the calls (its own and those of [convert]). *)
Fixpoint main (fuel : nat) (params : Request) (override_converter : string)
         (list_currs first_try : bool) : M unit (Z * Output) :=
  match fuel with
  | O => out_of_fuel
  | S fuel' =>
      made <- try_except
                (app <- App.init params override_converter list_currs ;;
                 ret (inl app))
                init_error
                (fun e =>
                   match e with
                   | FileNotFoundError | JSONDecodeError =>
                       ret (inr (2%Z,
                             Message "Configuration file is missing or corrupted."))
                   | ValueError =>
                       ret (inr (1%Z,
                             Message "Given input currency is not a valid currency code or symbol."))
                   | _ =>
                       ret (inr (2%Z, Message "No currencies data available."))
                   end) ;;
      match made with
      | inr early => ret early
      | inl app =>
          modify_world
            (add_event (EvRun (converter_name (App.converter app)) params)) ;;
          (* [inl]: a return inside the handler; [inr]: the variable
             [output], unbound when [None] *)
          r <- try_except
                 (out <- with_object app (App.run fuel) ;;
                  ret (inr (Some (if negb list_currs then Json out
                                  else Plain out))))
                 is_ConversionError
                 (fun error =>
                    if negb first_try then
                      ret (inl (2%Z, Message "Conversion failed."))
                    else
                      out1 <-
                        (if error_type_is "xe_error" error then
                           r <- main fuel' params "oer" false false ;;
                           ret (Some (Returned (fst r) (snd r)))
                         else ret None) ;;
                      out2 <-
                        (if error_type_is "oer_error" error then
                           r <- main fuel' params "xe" false false ;;
                           ret (Some (Returned (fst r) (snd r)))
                         else ret out1) ;;
                      ret (inr out2)) ;;
          match r with
          | inl early => ret early
          | inr (Some output) => ret (0%Z, output)
          | inr None => raise UnboundLocalError
          end
      end
  end.

(* ===================================================================== *)
(** * web_api.py                                                         *)
(* ===================================================================== *)

(** The body of an answer: a string the view wrote, the second element of
    the list [main] returned (passed on as it is), or [prefix + output[1]]
    where [output[1]] is the JSON text of a run. *)
Inductive Body : Type :=
| Text (s : string)
| Payload (o : Output)
| Prefixed (prefix : string) (json : RunResult).

(** What a view function returns: a redirect to an endpoint, a body with a
    status code (the headers are not kept), or [None] when it falls off its
    end. *)
Inductive View : Type :=
| Redirect (endpoint : string)
| Answer (body : Body) (status : Z)
| NoAnswer.

(** [prefix + output[1]]: defined on strings; a dict or a list on the right
    raises [TypeError]. *)
Definition str_add (prefix : string) (o : Output) : outcome Body :=
  match o with
  | Message s => Ret (Text (prefix ++ s))
  | Json r => Ret (Prefixed prefix r)
  | Plain _ | Returned _ _ => Raise TypeError
  end.

(** [s] between double quotes. *)
Definition quoted (s : string) : string :=
  String double_quote (s ++ String double_quote EmptyString).

Module WebAPI.

Section Builtins.

(** The built-ins the view applies to the query arguments: [float(s)]
    ([None] when it raises [ValueError]), [s.upper()] and [s.lower()]. *)
Variable py_float : string -> option float.
Variable upper : string -> string.
Variable lower : string -> string.

(** The view [convert] on the query arguments [request.args]; [get] gives
    the first value of a key.  [float(None)] raises [TypeError] and
    [None.upper()] raises [AttributeError]: the handlers of the view are the
    [None] branches. *)
Definition convert (fuel : nat) (args : dict string) : M unit View :=
  if Nat.eqb (length args) 0 then ret (Redirect "convert_form")
  else
    match dict_get args "amount" with
    | None =>
        ret (Answer (Text ("Request Error: Missing required argument: "
                             ++ quoted "amount" ++ ".")) 400%Z)
    | Some a =>
        match py_float a with
        | None =>
            ret (Answer
                   (Text "Request Error: Given amount is not a valid number.")
                   400%Z)
        | Some amount =>
            match dict_get args "input_currency" with
            | None =>
                ret (Answer
                       (Text ("Request Error: Missing required argument: "
                                ++ quoted "input_currency" ++ ".")) 400%Z)
            | Some i =>
                let out_currency :=
                  match dict_get args "output_currency" with
                  | Some o => Some (upper o)
                  | None => None
                  end in
                let override_converter :=
                  match dict_get args "converter" with
                  | Some c => lower c
                  | None => ""
                  end in
                output <- main fuel (mkRequest amount (upper i) out_currency)
                               override_converter false true ;;
                if Z.eqb (fst output) 0 then
                  ret (Answer (Payload (snd output)) 200%Z)
                else if Z.eqb (fst output) 1 then
                  message <- lift_outcome
                               (str_add "Request Error: " (snd output)) ;;
                  ret (Answer message 400%Z)
                else if Z.eqb (fst output) 2 then
                  message <- lift_outcome
                               (str_add "Internal Server Error: "
                                        (snd output)) ;;
                  ret (Answer message 500%Z)
                else ret NoAnswer
            end
        end
    end.

End Builtins.

End WebAPI.

Unset Implicit Arguments.

(* ===================================================================== *)
(** * Vocabulary of the statements                                       *)
(* ===================================================================== *)

(** The three parts of what running a method yields. *)
Definition result_of {A Self} (r : outcome A * Self * World) : outcome A :=
  fst (fst r).
Definition self_of {A Self} (r : outcome A * Self * World) : Self :=
  snd (fst r).
Definition world_of {A Self} (r : outcome A * Self * World) : World :=
  snd r.

(** Where the first [try] statement of a loader ends, as a function of the
    expiration window, the clock reading and the cache file; and the world
    it leaves (the clock is read once the file has been parsed). *)
Definition cache_check {P} (exp now : float) (file : CacheFile P)
  : CacheCheck P :=
  match file with
  | Parsed (Object (Some (TsNumber t)) payload) =>
      if PrimFloat.ltb exp (PrimFloat.sub now t)
      then Expired (Object (Some (TsNumber t)) payload)
      else Fresh (Object (Some (TsNumber t)) payload)
  | _ => Missing
  end.

Definition after_check {P} (file : CacheFile P) (w : World) : World :=
  match file with
  | Parsed _ => set_ticks (S (ticks w)) w
  | _ => w
  end.

(** The directory [get_currencies] leaves when the remote answer is
    [response] and the directory held before is [d]. *)
Definition merge_currencies (d response : dict CurrencyEntry)
  : dict CurrencyEntry :=
  fold_left
    (fun d kv => dict_set d (fst kv) (mkEntry (symbol (snd kv)) (name (snd kv))))
    response d.

(** The runs recorded in the trace, newest first. *)
Definition is_run (ev : Event) : bool :=
  match ev with EvRun _ _ => true | _ => false end.

Definition runs (w : World) : list Event := filter is_run (trace w).

(** The value of [convert] once the table [R] is loaded. *)
Definition pivot_value (R : dict float) (p : Params) : outcome float :=
  let unsupported := Raise (ConversionError "unsupported") in
  if String.eqb (in_currency p) "USD" then
    match dict_get R (out_currency p) with
    | Some r => Ret (PrimFloat.mul (amount p) r)
    | None => unsupported
    end
  else if String.eqb (out_currency p) "USD" then
    match dict_get R (in_currency p) with
    | Some r => float_truediv (amount p) r
    | None => unsupported
    end
  else
    match dict_get R (in_currency p) with
    | Some r_in =>
        match float_truediv (amount p) r_in with
        | Ret usd =>
            match dict_get R (out_currency p) with
            | Some r_out => Ret (PrimFloat.mul usd r_out)
            | None => unsupported
            end
        | other => other
        end
    | None => unsupported
    end.

(** The self-call [convert] makes for [p] on the table [R], if any. *)
Definition pivot_call (R : dict float) (p : Params) : option Params :=
  if (String.eqb (in_currency p) "USD" || String.eqb (out_currency p) "USD")%bool
  then None
  else
    match dict_get R (in_currency p) with
    | Some r_in =>
        match float_truediv (amount p) r_in with
        | Ret usd => Some (mkParams usd "USD" (out_currency p))
        | _ => None
        end
    | None => None
    end.

(** The world once the self-call, if any, is recorded. *)
Definition log_call (call : option Params) (w : World) : World :=
  match call with
  | None => w
  | Some p' => add_event (EvConvert ConverterOER.name p') w
  end.

(** The [try] statement of [convert] (lines 212-225), with the budget left
    for the self-call. *)
Definition OER_try_block (fuel : nat) (p : Params) : M ConverterOER.t float :=
  try_except
    (if String.eqb (in_currency p) "USD" then
       r <- ConverterOER.rate (out_currency p) ;;
       ret (PrimFloat.mul (amount p) r)
     else if String.eqb (out_currency p) "USD" then
       r <- ConverterOER.rate (in_currency p) ;;
       lift_outcome (float_truediv (amount p) r)
     else
       r <- ConverterOER.rate (in_currency p) ;;
       usd <- lift_outcome (float_truediv (amount p) r) ;;
       ConverterOER.convert fuel (mkParams usd "USD" (out_currency p)))
    ConverterOER.is_KeyError
    (fun _ => raise (ConversionError "unsupported")).

(** Lines 209-210 of [convert]: [if self.rates is None: self.load_rates()]. *)
Definition OER_ensure_rates : M ConverterOER.t unit :=
  fun self w =>
    match ConverterOER.rates self with
    | Some _ => (Ret tt, self, w)
    | None => ConverterOER.load_rates self w
    end.

(** [f] applied to the value of an outcome, an exception passed on. *)
Definition outcome_map {A B} (f : A -> B) (o : outcome A) : outcome B :=
  match o with
  | Ret a => Ret (f a)
  | Raise e => Raise e
  | OutOfFuel => OutOfFuel
  end.

(** What the strategy held by [c] answers to [p] in the world [w]. *)
Definition strategy_value (fuel : nat) (c : Converter) (w : World)
           (p : Params) : outcome float :=
  result_of (converter_convert fuel p c w).

(** The request the loop passes to the strategy for the target [curr]. *)
Definition target_params (app : App.t) (curr : string) : Params :=
  mkParams (App.amount app) (App.in_currency app) curr.

(** One round of the loop on the map built so far, given the strategy's
    answers [val]. *)
Definition loop_step (val : Params -> outcome float) (app : App.t)
           (converted : dict float) (curr : string) : dict float :=
  if String.eqb curr (App.in_currency app) then
    dict_set converted curr (App.amount app)
  else
    match val (target_params app curr) with
    | Ret v => dict_set converted curr (py_round2 v)
    | _ => converted
    end.

(** The targets [get_conversion] loops over when no output currency is
    set. *)
Definition all_targets (app : App.t) : list string :=
  match cfg_override_currencies (App.config app) with
  | None => dict_keys (converter_currencies (App.converter app))
  | Some override => override
  end.

(** The targets [get_conversion] loops over, by [self.out_currs]; none once
    the attribute holds a list already. *)
Definition targets_of (app : App.t) : option (list string) :=
  match App.out_currs app with
  | App.OutOne (Some code) => Some [code]
  | App.OutOne None => Some (all_targets app)
  | App.OutMany _ => None
  end.

(** [ev] is a strategy call for the target [out]. *)
Definition call_with_target (out : string) (ev : Event) : Prop :=
  exists s p, ev = EvConvert s p /\ out_currency p = out.

(** [ev] is a strategy call for a target other than [code]. *)
Definition call_for_other (code : string) (ev : Event) : Prop :=
  exists s p, ev = EvConvert s p /\ out_currency p <> code.

(** What the entries of the map are: the original amount under the input
    currency, a rounded value under any other key. *)
Definition presented (app : App.t) (m : dict float) : Prop :=
  forall k x,
    dict_get m k = Some x ->
    (k = App.in_currency app -> x = App.amount app) /\
    (k <> App.in_currency app -> exists v, x = py_round2 v).

(** The world after [log]. *)
Definition logged (app : App.t) (w : World) : World :=
  match cfg_log_filename (App.config app) with
  | None => w
  | Some _ => set_ticks (S (ticks w)) w
  end.

(** The list [main] returns when [App(...)] raises [e]. *)
Definition init_failure (e : exn) : Z * Output :=
  match e with
  | FileNotFoundError | JSONDecodeError =>
      (2%Z, Message "Configuration file is missing or corrupted.")
  | ValueError =>
      (1%Z,
       Message "Given input currency is not a valid currency code or symbol.")
  | _ => (2%Z, Message "No currencies data available.")
  end.

(** What [main] makes of the list its retry returned. *)
Definition wrap_retry (r : outcome (Z * Output) * unit * World)
  : outcome (Z * Output) * unit * World :=
  match r with
  | (Ret inner, u, w) => (Ret (0%Z, Returned (fst inner) (snd inner)), u, w)
  | other => other
  end.

(** The first two statements of [App.__init__]: the configuration and the
    converter object. *)
Definition build_converter (override_converter : string)
  : M unit (Config * Converter) :=
  config <- App.load_config ;;
  converter <- App.set_converter config override_converter ;;
  ret (config, converter).

(** The strategy [set_converter] selects. *)
Definition selects_XE (config : Config) (override_converter : string) : bool :=
  if str_contains "xe" override_converter then true
  else if str_contains "oer" override_converter then false
  else String.eqb (cfg_converter config) "ConverterXE".

(** The network failure a strategy raises. *)
Definition network_error_of (c : Converter) : string :=
  match c with
  | XE _ => "xe_error"
  | OER _ => "oer_error"
  end.

(** The last value a sequence of items gives to the key [k]. *)
Definition last_value {V} (items : dict V) (k : string) : option V :=
  dict_get (rev items) k.





(** A list [main] returns: severity 0, or severity 1 or 2 with a message
    string. *)
Definition severity (code : Z) (out : Output) : Prop :=
  (code = 0)%Z \/ ((code = 1 \/ code = 2)%Z /\ exists s, out = Message s).



(** The targets the loop has to ask the strategy for: all but the input
    currency, in order, repetitions kept. *)
Definition asked_targets (app : App.t) (targets : list string) : list string :=
  filter (fun curr => negb (String.eqb curr (App.in_currency app))) targets.

(** The trace entries of the strategy calls of [app] for the targets
    [made], the newest first. *)
Definition calls_for (app : App.t) (made : list string) : list Event :=
  rev (map (fun curr =>
              EvConvert (converter_name (App.converter app))
                        (target_params app curr)) made).

(* ===================================================================== *)
(** * Sample inputs                                                      *)
(* ===================================================================== *)

Set Warnings "-inexact-float".

(** Four currencies; the rate table below knows three of them. *)
Definition sample_directory : dict CurrencyEntry :=
  [ ("USD", mkEntry "$" "US Dollar");
    ("EUR", mkEntry "E" "Euro");
    ("GBP", mkEntry "L" "British Pound Sterling");
    ("BTC", mkEntry "B" "Bitcoin") ].

Definition sample_rates : dict float :=
  [ ("USD", 1%float); ("EUR", 0.9%float); ("GBP", 0.8%float) ].

Definition sample_config (converter : string) : Config :=
  mkConfig converter false 1440%float (mkOERConfig "app-id" 60%float)
           None None.

Definition envelope {P} (t : float) (payload : P) : CacheFile P :=
  Parsed (Object (Some (TsNumber t)) (Some payload)).

(** The clock reads 1000000 throughout; no remote service answers. *)
Definition offline (converter : string)
           (currencies : CacheFile (dict CurrencyEntry))
           (rates : CacheFile (dict float)) : World :=
  mkWorld (fun _ => 1000000%float) 0 (Some (sample_config converter))
          currencies rates None (fun _ => None) (fun _ => None) [].

(** Both caches were written at time 0: older than either window. *)
Definition world_stale : World :=
  offline "ConverterXE" (envelope 0%float sample_directory)
          (envelope 0%float sample_rates).

(** Both caches were written a hundred seconds ago. *)
Definition world_fresh : World :=
  offline "ConverterOER" (envelope 999900%float sample_directory)
          (envelope 999900%float sample_rates).

(** No rates cache; the OER service answers with rates stamped 500. *)
Definition world_oer_online : World :=
  mkWorld (fun _ => 1000000%float) 0 (Some (sample_config "ConverterOER"))
          (envelope 999900%float sample_directory) NoFile None
          (fun _ => Some (mkOERResponse 500%float sample_rates))
          (fun _ => None) [].

Definition sample_common : ConverterCommon.t :=
  ConverterCommon.mk false 86400%float [].

Definition sample_oer : ConverterOER.t :=
  ConverterOER.mk (ConverterCommon.mk false 86400%float sample_directory)
                  "app-id" 3600%float None.

Definition sample_xe : ConverterXE.t :=
  ConverterXE.mk (ConverterCommon.mk false 86400%float sample_directory) None.

(** An [App] holding the rate-table strategy, for [amount] in [code] to
    every currency. *)
Definition sample_app (amount : float) (code : string) : App.t :=
  App.mk (sample_config "ConverterOER") (OER sample_oer) false amount code
         (App.OutOne None).

(** The currencies cache holds [{"timestamp": 0}] and nothing else; no
    remote service answers. *)
Definition world_no_payload : World :=
  offline "ConverterXE" (Parsed (Object (Some (TsNumber 0%float)) None))
          NoFile.

(** The XE service answers every request with 88.89; it knows EUR and GBP
    and echoes USD in place of any other code. *)
Definition xe_service (p : XEParams) : option XEResponse :=
  let known code :=
    if (String.eqb code "EUR" || String.eqb code "GBP")%bool
    then code else "USD" in
  Some (mkXEResponse 88.89%float (known (From p), known (To p))).

Definition world_xe_online : World :=
  mkWorld (fun _ => 1000000%float) 0 (Some (sample_config "ConverterXE"))
          (envelope 999900%float sample_directory) NoFile None
          (fun _ => None) xe_service [].

(** No cache files; the currency service answers with the sample
    directory. *)
Definition world_directory_online : World :=
  mkWorld (fun _ => 1000000%float) 0 (Some (sample_config "ConverterXE"))
          NoFile NoFile (Some sample_directory)
          (fun _ => None) (fun _ => None) [].

(** The same, with an override list that repeats two codes. *)
Definition sample_app_override (amount : float) (code : string) : App.t :=
  App.mk (mkConfig "ConverterOER" false 1440%float
                   (mkOERConfig "app-id" 60%float)
                   (Some ["USD"; "EUR"; "EUR"; "BTC"; "GBP"; "USD"]) None)
         (OER sample_oer) false amount code (App.OutOne None).

(** An [App] holding the scrape strategy, for [amount] in [code] to every
    currency. *)
Definition sample_app_xe (amount : float) (code : string) : App.t :=
  App.mk (sample_config "ConverterXE") (XE sample_xe) false amount code
         (App.OutOne None).

(** Unfolds the monad and the primitive statements. *)
Ltac unfold_py :=
  unfold bind, ret, raise, out_of_fuel, try_except, get_self, put_self,
    get_world, modify_world, lift_outcome, call_on, with_object, construct,
    time_time, getitem, json_load, cache_timestamp, cache_payload,
    float_sub_json, result_of, self_of, world_of in *.

(* ===================================================================== *)
(** * Reading the results of a run                                       *)
(* ===================================================================== *)

Lemma result_of_triple {A Self} (r : outcome A) (s : Self) (w : World) :
  result_of (r, s, w) = r.
Proof. reflexivity. Qed.

Lemma self_of_triple {A Self} (r : outcome A) (s : Self) (w : World) :
  self_of (r, s, w) = s.
Proof. reflexivity. Qed.

Lemma world_of_triple {A Self} (r : outcome A) (s : Self) (w : World) :
  world_of (r, s, w) = w.
Proof. reflexivity. Qed.

(* ===================================================================== *)
(** * The loaders as state transformers                                  *)
(* ===================================================================== *)

Lemma load_rates_eq (self : ConverterOER.t) (w : World) :
  ConverterOER.load_rates self w =
  let file := cache_rates_json w in
  let w1 := after_check file w in
  match cache_check (ConverterOER.rates_exp self) (clock w (ticks w)) file with
  | Fresh (Object _ (Some payload)) =>
      (Ret tt, ConverterOER.set_rates payload self, w1)
  | Fresh _ => (Raise (KeyError "rates"), self, w1)
  | _ =>
      match remote_rates w (ConverterOER.app_id self) with
      | None => (Raise (ConversionError "oer_error"), self, w1)
      | Some response =>
          (Ret tt, ConverterOER.set_rates (resp_rates response) self,
           set_cache_rates
             (Parsed (Object (Some (TsNumber (resp_timestamp response)))
                             (Some (resp_rates response)))) w1)
      end
  end.
Proof.
  unfold ConverterOER.load_rates, ConverterOER.save_rates, cache_check,
    after_check.
  unfold_py.
  destruct (cache_rates_json w) as [ | | [ | [ [t | ] | ] [payload | ] ] ];
    simpl;
    try destruct (PrimFloat.ltb _ _); simpl;
    try destruct (remote_rates w (ConverterOER.app_id self)); reflexivity.
Qed.

Lemma load_currencies_eq (self : ConverterCommon.t) (w : World) :
  ConverterCommon.load_currencies self w =
  let file := cache_currencies_json w in
  let w1 := after_check file w in
  match cache_check (ConverterCommon.curr_exp self) (clock w (ticks w)) file with
  | Fresh (Object _ (Some payload)) =>
      (Ret tt, ConverterCommon.set_currencies payload self, w1)
  | Fresh _ => (Raise (KeyError "currencies"), self, w1)
  | chk =>
      match remote_currencies w with
      | Some response =>
          let self' :=
            ConverterCommon.set_currencies
              (merge_currencies (ConverterCommon.currencies self) response)
              self in
          (Ret tt, self',
           set_cache_currencies
             (Parsed (Object (Some (TsNumber (clock w1 (ticks w1))))
                             (Some (ConverterCommon.currencies self'))))
             (set_ticks (S (ticks w1)) w1))
      | None =>
          match chk with
          | Missing => (Raise (ConversionError "no_currs_data"), self, w1)
          | Expired (Object _ (Some payload)) =>
              (Ret tt, ConverterCommon.set_currencies payload self, w1)
          | _ => (Raise (KeyError "currencies"), self, w1)
          end
      end
  end.
Proof.
  unfold ConverterCommon.load_currencies, ConverterCommon.get_currencies,
    ConverterCommon.save_currencies, cache_check, after_check,
    merge_currencies.
  unfold_py.
  destruct (cache_currencies_json w) as [ | | [ | [ [t | ] | ] [payload | ] ] ];
    simpl;
    try destruct (PrimFloat.ltb _ _); simpl;
    try destruct (remote_currencies w); reflexivity.
Qed.

(* ===================================================================== *)
(** * The rate-table strategy                                            *)
(* ===================================================================== *)

Lemma float_truediv_cases (x y : float) :
  float_truediv x y = Raise ZeroDivisionError \/
  float_truediv x y = Ret (PrimFloat.div x y).
Proof. unfold float_truediv. destruct (PrimFloat.eqb y 0); auto. Qed.

Lemma OER_convert_unfold (fuel : nat) (p : Params)
      (self : ConverterOER.t) (w : World) :
  ConverterOER.convert (S fuel) p self w =
  let w1 := add_event (EvConvert ConverterOER.name p) w in
  match ConverterOER.rates self with
  | Some _ => OER_try_block fuel p self w1
  | None =>
      match ConverterOER.load_rates self w1 with
      | (Ret _, self', w') => OER_try_block fuel p self' w'
      | (Raise e, self', w') => (Raise e, self', w')
      | (OutOfFuel, self', w') => (OutOfFuel, self', w')
      end
  end.
Proof.
  cbn [ConverterOER.convert]. fold (OER_try_block fuel p).
  unfold bind at 1 2 3. unfold modify_world, get_self. cbv zeta.
  destruct (ConverterOER.rates self); [ reflexivity | ].
  destruct (ConverterOER.load_rates self _) as [[[ [] | e | ] self'] w'];
    reflexivity.
Qed.

(** The [try] block on a loaded table when no self-call is due: the budget
    does not matter. *)
Lemma OER_try_block_flat (fuel : nat) (p : Params)
      (self : ConverterOER.t) (w : World) (R : dict float) :
  ConverterOER.rates self = Some R ->
  pivot_call R p = None ->
  OER_try_block fuel p self w = (pivot_value R p, self, w).
Proof.
  intros HR Hcall. unfold pivot_call in Hcall. unfold pivot_value.
  unfold OER_try_block, ConverterOER.rate. unfold_py.
  destruct (String.eqb (in_currency p) "USD") eqn:Ein; simpl in *.
  - rewrite HR. destruct (dict_get R (out_currency p)); reflexivity.
  - destruct (String.eqb (out_currency p) "USD") eqn:Eout; simpl in *.
    + rewrite HR. destruct (dict_get R (in_currency p)) as [r | ]; simpl;
        [ | reflexivity ].
      destruct (float_truediv_cases (amount p) r) as [E | E]; rewrite E;
        reflexivity.
    + rewrite HR. destruct (dict_get R (in_currency p)) as [r | ]; simpl;
        [ | reflexivity ].
      destruct (float_truediv_cases (amount p) r) as [E | E]; rewrite E in *;
        [ reflexivity | discriminate ].
Qed.

Lemma pivot_call_inv (R : dict float) (p p' : Params) :
  pivot_call R p = Some p' ->
  String.eqb (in_currency p) "USD" = false /\
  String.eqb (out_currency p) "USD" = false /\
  exists r usd,
    dict_get R (in_currency p) = Some r /\
    float_truediv (amount p) r = Ret usd /\
    p' = mkParams usd "USD" (out_currency p).
Proof.
  unfold pivot_call. intros H.
  destruct (String.eqb (in_currency p) "USD"); [ discriminate | ].
  destruct (String.eqb (out_currency p) "USD"); [ discriminate | ].
  simpl in H.
  destruct (dict_get R (in_currency p)) as [r | ]; [ | discriminate ].
  destruct (float_truediv (amount p) r) as [usd | | ] eqn:E; try discriminate.
  injection H as <-. repeat split. exists r, usd. auto.
Qed.

(** The [try] block on a loaded table when the self-call is due. *)
Lemma OER_try_block_pivot (fuel : nat) (p p' : Params)
      (self : ConverterOER.t) (w : World) (R : dict float) :
  ConverterOER.rates self = Some R ->
  pivot_call R p = Some p' ->
  OER_try_block fuel p self w =
  (ConverterOER.convert fuel p' self w).
Proof.
  intros HR Hcall.
  destruct (pivot_call_inv _ _ _ Hcall) as (Ein & Eout & r & usd & Hin & Hdiv & ->).
  unfold OER_try_block. rewrite Ein, Eout.
  unfold ConverterOER.rate at 1. unfold_py.
  rewrite HR, Hin. cbn -[ConverterOER.convert]. rewrite Hdiv.
  destruct fuel as [ | fuel ]; [ reflexivity | ].
  rewrite OER_convert_unfold. cbv zeta. rewrite HR.
  rewrite (OER_try_block_flat fuel _ self _ R HR) by reflexivity.
  unfold pivot_value. simpl.
  destruct (dict_get R (out_currency p)); reflexivity.
Qed.

Lemma pivot_value_call (R : dict float) (p p' : Params) :
  pivot_call R p = Some p' -> pivot_value R p' = pivot_value R p.
Proof.
  intros Hcall.
  destruct (pivot_call_inv _ _ _ Hcall) as (Ein & Eout & r & usd & Hin & Hdiv & ->).
  unfold pivot_value. rewrite Ein, Eout, Hin, Hdiv. reflexivity.
Qed.

(** [convert] on a loaded table: the value and the calls it makes. *)
Lemma OER_convert_loaded (fuel : nat) (p : Params)
      (self : ConverterOER.t) (w : World) (R : dict float) :
  ConverterOER.rates self = Some R ->
  ConverterOER.convert (S (S fuel)) p self w =
  (pivot_value R p, self,
   log_call (pivot_call R p) (add_event (EvConvert ConverterOER.name p) w)).
Proof.
  intros HR. rewrite OER_convert_unfold. cbv zeta. rewrite HR.
  destruct (pivot_call R p) as [p' | ] eqn:Hcall.
  - rewrite (OER_try_block_pivot _ _ _ _ _ _ HR Hcall).
    rewrite OER_convert_unfold. cbv zeta. rewrite HR.
    assert (Hflat : pivot_call R p' = None).
    { destruct (pivot_call_inv _ _ _ Hcall) as (_ & _ & r & usd & _ & _ & ->).
      reflexivity. }
    rewrite (OER_try_block_flat _ _ _ _ _ HR Hflat).
    rewrite (pivot_value_call _ _ _ Hcall). reflexivity.
  - rewrite (OER_try_block_flat _ _ _ _ _ HR Hcall). reflexivity.
Qed.

Lemma OER_convert_steps (fuel : nat) (p : Params)
      (self : ConverterOER.t) (w : World) :
  ConverterOER.convert (S fuel) p self w =
  match OER_ensure_rates self (add_event (EvConvert ConverterOER.name p) w) with
  | (Ret _, self', w') => OER_try_block fuel p self' w'
  | (Raise e, self', w') => (Raise e, self', w')
  | (OutOfFuel, self', w') => (OutOfFuel, self', w')
  end.
Proof.
  rewrite OER_convert_unfold. cbv zeta. unfold OER_ensure_rates.
  destruct (ConverterOER.rates self); reflexivity.
Qed.

(** Loading the table neither calls [convert] nor runs out of budget, and
    when it returns the table is there. *)
Lemma OER_ensure_rates_outcome (self : ConverterOER.t) (w : World) :
  trace (world_of (OER_ensure_rates self w)) = trace w /\
  ((exists e, result_of (OER_ensure_rates self w) = Raise e) \/
   (result_of (OER_ensure_rates self w) = Ret tt /\
    exists R, ConverterOER.rates (self_of (OER_ensure_rates self w)) = Some R)).
Proof.
  unfold OER_ensure_rates.
  destruct (ConverterOER.rates self) as [R | ] eqn:HR.
  - split; [ reflexivity | right; split; [ reflexivity | exists R; exact HR ] ].
  - rewrite load_rates_eq. cbv zeta.
    unfold cache_check, after_check.
    destruct (cache_rates_json w) as [ | | [ | [ [t | ] | ] [payload | ] ] ];
      try destruct (PrimFloat.ltb _ _);
      try destruct (remote_rates w (ConverterOER.app_id self));
      (split; [ reflexivity | ]);
      first [ left; eexists; reflexivity
            | right; split; [ reflexivity | eexists; reflexivity ] ].
Qed.

Lemma OER_ensure_rates_loaded (self : ConverterOER.t) (w : World)
      (R : dict float) :
  ConverterOER.rates self = Some R ->
  OER_ensure_rates self w = (Ret tt, self, w).
Proof. unfold OER_ensure_rates. intros ->. reflexivity. Qed.

(** The trace does not influence the loading of the table. *)
Lemma OER_ensure_rates_add_event (ev : Event) (self : ConverterOER.t)
      (w : World) :
  OER_ensure_rates self (add_event ev w) =
  (result_of (OER_ensure_rates self w), self_of (OER_ensure_rates self w),
   add_event ev (world_of (OER_ensure_rates self w))).
Proof.
  unfold OER_ensure_rates.
  destruct (ConverterOER.rates self) as [R | ]; [ reflexivity | ].
  rewrite !load_rates_eq. cbv zeta.
  unfold cache_check, after_check. simpl.
  destruct (cache_rates_json w) as [ | | [ | [ [t | ] | ] [payload | ] ] ];
    try destruct (PrimFloat.ltb _ _);
    try destruct (remote_rates w (ConverterOER.app_id self));
    reflexivity.
Qed.

(** [convert] in full: the table is made available, then the value is
    [pivot_value] and the only self-call is [pivot_call]. *)
Lemma OER_convert_eq (fuel : nat) (p : Params)
      (self : ConverterOER.t) (w : World) :
  ConverterOER.convert (S (S fuel)) p self w =
  let ready := OER_ensure_rates self w in
  let w1 := add_event (EvConvert ConverterOER.name p) (world_of ready) in
  match result_of ready, ConverterOER.rates (self_of ready) with
  | Ret _, Some R =>
      (pivot_value R p, self_of ready, log_call (pivot_call R p) w1)
  | Ret _, None => (Raise TypeError, self_of ready, w1)
  | Raise e, _ => (Raise e, self_of ready, w1)
  | OutOfFuel, _ => (OutOfFuel, self_of ready, w1)
  end.
Proof.
  rewrite OER_convert_steps, OER_ensure_rates_add_event. cbv zeta.
  destruct (OER_ensure_rates_outcome self w) as [_ [[e He] | [Hr [R HR]]]].
  - rewrite He. reflexivity.
  - rewrite Hr, HR.
    pose proof (OER_convert_loaded fuel p _
                  (world_of (OER_ensure_rates self w)) R HR) as H.
    rewrite OER_convert_unfold in H. cbv zeta in H. rewrite HR in H.
    exact H.
Qed.

Lemma float_truediv_nonzero (x y : float) :
  PrimFloat.eqb y 0%float = false ->
  float_truediv x y = Ret (PrimFloat.div x y).
Proof. unfold float_truediv. intros ->. reflexivity. Qed.

Lemma pivot_value_not_out_of_fuel (R : dict float) (p : Params) :
  pivot_value R p <> OutOfFuel.
Proof.
  unfold pivot_value.
  destruct (String.eqb (in_currency p) "USD").
  - destruct (dict_get R (out_currency p)); discriminate.
  - destruct (String.eqb (out_currency p) "USD");
      destruct (dict_get R (in_currency p)) as [r | ]; try discriminate;
      destruct (float_truediv_cases (amount p) r) as [E | E]; rewrite E;
      try discriminate.
    destruct (dict_get R (out_currency p)); discriminate.
Qed.

Lemma eqb_false_neq (a b : string) : String.eqb a b = false -> a <> b.
Proof. intros H. apply String.eqb_neq. exact H. Qed.

(** C3: on the rate table [R] the strategy works with (held already, or
    loaded by this call), and for a request whose two codes are keys of [R]:
    from USD the result is [amount * R[out]]; otherwise to USD it is
    [amount / R[in]]; otherwise it is [(amount / R[in]) * R[out]].  The
    division is Python's: on a zero rate it raises [ZeroDivisionError], and
    so does [convert]. *)
Theorem OER_convert_formula :
  forall (fuel : nat) (p : Params) (self : ConverterOER.t) (w : World)
         (R : dict float) (r_in r_out : float),
    result_of (OER_ensure_rates self w) = Ret tt ->
    ConverterOER.rates (self_of (OER_ensure_rates self w)) = Some R ->
    dict_get R (in_currency p) = Some r_in ->
    dict_get R (out_currency p) = Some r_out ->
    let result := result_of (ConverterOER.convert (S (S fuel)) p self w) in
    (in_currency p = "USD" ->
     result = Ret (PrimFloat.mul (amount p) r_out)) /\
    (in_currency p <> "USD" -> out_currency p = "USD" ->
     result = float_truediv (amount p) r_in) /\
    (in_currency p <> "USD" -> out_currency p <> "USD" ->
     result = outcome_map (fun usd => PrimFloat.mul usd r_out)
                          (float_truediv (amount p) r_in)) /\
    (PrimFloat.eqb r_in 0%float = false ->
     float_truediv (amount p) r_in = Ret (PrimFloat.div (amount p) r_in)).
Proof.
  intros fuel p self w R r_in r_out Hready HR Hin Hout result.
  subst result. rewrite OER_convert_eq. cbv zeta. rewrite Hready, HR.
  unfold result_of at 1. simpl fst. unfold pivot_value. rewrite Hin, Hout.
  repeat split.
  - intros ->. reflexivity.
  - intros Hn ->. apply String.eqb_neq in Hn. rewrite Hn. reflexivity.
  - intros Hn Hm. apply String.eqb_neq in Hn, Hm. rewrite Hn, Hm.
    destruct (float_truediv (amount p) r_in); reflexivity.
  - apply float_truediv_nonzero.
Qed.

(** C9: [convert] returns for every request once the budget allows two
    nested calls, and more budget changes nothing.  Either it makes no
    self-call (one level is enough), or it makes exactly one, for a request
    from USD to the same target, and one level is not enough.  On the pivot
    path (neither code is USD, the input rate is in the table and not zero)
    it is the second: one self-call, with [amount / R[in]] from USD. *)
Theorem OER_convert_depth_one :
  forall (fuel : nat) (p : Params) (self : ConverterOER.t) (w : World),
    let run2 := ConverterOER.convert (S (S fuel)) p self w in
    let run1 := ConverterOER.convert 1 p self w in
    result_of run2 <> OutOfFuel /\
    run2 = ConverterOER.convert 2 p self w /\
    ((trace (world_of run2) = EvConvert ConverterOER.name p :: trace w /\
      run1 = run2)
     \/
     (exists usd : float,
         trace (world_of run2) =
           EvConvert ConverterOER.name (mkParams usd "USD" (out_currency p))
             :: EvConvert ConverterOER.name p :: trace w /\
         in_currency p <> "USD" /\ out_currency p <> "USD" /\
         result_of run1 = OutOfFuel)) /\
    (forall (R : dict float) (r : float),
        result_of (OER_ensure_rates self w) = Ret tt ->
        ConverterOER.rates (self_of (OER_ensure_rates self w)) = Some R ->
        in_currency p <> "USD" -> out_currency p <> "USD" ->
        dict_get R (in_currency p) = Some r ->
        PrimFloat.eqb r 0%float = false ->
        trace (world_of run2) =
          EvConvert ConverterOER.name
                    (mkParams (PrimFloat.div (amount p) r) "USD"
                              (out_currency p))
            :: EvConvert ConverterOER.name p :: trace w).
Proof.
  intros fuel p self w run2 run1. subst run2 run1.
  assert (Hpivot :
            forall (R : dict float) (r : float),
              result_of (OER_ensure_rates self w) = Ret tt ->
              ConverterOER.rates (self_of (OER_ensure_rates self w)) = Some R ->
              in_currency p <> "USD" -> out_currency p <> "USD" ->
              dict_get R (in_currency p) = Some r ->
              PrimFloat.eqb r 0%float = false ->
              trace (world_of (ConverterOER.convert (S (S fuel)) p self w)) =
                EvConvert ConverterOER.name
                          (mkParams (PrimFloat.div (amount p) r) "USD"
                                    (out_currency p))
                  :: EvConvert ConverterOER.name p :: trace w).
  { intros R r Hr HR Nin Nout Hin Hnz.
    rewrite OER_convert_eq. cbv zeta. rewrite Hr, HR, world_of_triple.
    apply String.eqb_neq in Nin, Nout.
    unfold pivot_call. rewrite Nin, Nout, Hin.
    rewrite (float_truediv_nonzero _ _ Hnz). simpl.
    rewrite (proj1 (OER_ensure_rates_outcome self w)). reflexivity. }
  refine ((fun H => conj (proj1 H)
                      (conj (proj1 (proj2 H))
                            (conj (proj2 (proj2 H)) Hpivot))) _).
  clear Hpivot.
  rewrite (OER_convert_eq fuel), (OER_convert_eq 0).
  rewrite OER_convert_steps, OER_ensure_rates_add_event. cbv zeta.
  destruct (OER_ensure_rates_outcome self w) as [Htr [[e He] | [Hr [R HR]]]].
  - rewrite He. unfold world_of in Htr. unfold result_of, world_of; simpl.
    split; [ discriminate | split; [ reflexivity | left ] ].
    rewrite Htr. split; reflexivity.
  - rewrite Hr, HR. unfold world_of in Htr.
    unfold result_of at 1, world_of; simpl fst; simpl snd.
    split; [ apply pivot_value_not_out_of_fuel | split; [ reflexivity | ] ].
    destruct (pivot_call R p) as [p' | ] eqn:Hcall.
    + right.
      destruct (pivot_call_inv _ _ _ Hcall)
        as (Ein & Eout & r & usd & _ & _ & ->).
      exists usd. simpl. rewrite Htr.
      repeat split; try (apply eqb_false_neq; assumption).
      rewrite (OER_try_block_pivot 0 p _ _ _ R HR Hcall). reflexivity.
    + left. simpl. rewrite Htr. split; [ reflexivity | ].
      rewrite (OER_try_block_flat 0 p _ _ R HR Hcall). reflexivity.
Qed.

(* ===================================================================== *)
(** * The scrape strategy                                                *)
(* ===================================================================== *)

Lemma XE_convert_eq (p : Params) (self : ConverterXE.t) (w : World) :
  ConverterXE.convert p self w =
  let xp := mkXEParams (amount p) (in_currency p) (out_currency p) in
  let self' := ConverterXE.mk (ConverterXE.common self) (Some xp) in
  let w' := add_event (EvConvert ConverterXE.name p) w in
  match remote_xe w xp with
  | None => (Raise (ConversionError "xe_error"), self', w')
  | Some response =>
      if (String.eqb (fst (returned_currs response)) (in_currency p)
          && String.eqb (snd (returned_currs response)) (out_currency p))%bool
      then (Ret (converted response), self', w')
      else (Raise (ConversionError "unsupported"), self', w')
  end.
Proof.
  unfold ConverterXE.convert, ConverterXE.get_response,
    ConverterXE.check_response, ConverterXE.is_not_False.
  unfold_py. simpl.
  destruct (remote_xe w _) as [response | ]; [ | reflexivity ].
  simpl.
  destruct (String.eqb (fst (returned_currs response)) (in_currency p));
    destruct (String.eqb (snd (returned_currs response)) (out_currency p));
    reflexivity.
Qed.

(** C4: the scrape strategy returns the parsed amount exactly when the
    service answered and both echoed codes are the requested ones; when an
    echoed code differs it raises [ConversionError('unsupported')]; when the
    request or the parsing fails it raises [ConversionError('xe_error')],
    which is a different error. *)
Theorem XE_convert_integrity :
  forall (p : Params) (self : ConverterXE.t) (w : World),
    let result := result_of (ConverterXE.convert p self w) in
    let answer :=
      remote_xe w (mkXEParams (amount p) (in_currency p) (out_currency p)) in
    (forall response,
        answer = Some response ->
        fst (returned_currs response) = in_currency p ->
        snd (returned_currs response) = out_currency p ->
        result = Ret (converted response)) /\
    (forall response,
        answer = Some response ->
        fst (returned_currs response) <> in_currency p \/
        snd (returned_currs response) <> out_currency p ->
        result = Raise (ConversionError "unsupported")) /\
    (answer = None -> result = Raise (ConversionError "xe_error")) /\
    (forall v,
        result = Ret v ->
        exists response,
          answer = Some response /\
          fst (returned_currs response) = in_currency p /\
          snd (returned_currs response) = out_currency p /\
          v = converted response) /\
    ConversionError "unsupported" <> ConversionError "xe_error".
Proof.
  intros p self w result answer. subst result answer.
  rewrite XE_convert_eq. cbv zeta.
  destruct (remote_xe w _) as [response | ].
  - destruct (String.eqb_spec (fst (returned_currs response)) (in_currency p))
      as [E1 | N1];
      destruct (String.eqb_spec (snd (returned_currs response)) (out_currency p))
      as [E2 | N2]; unfold result_of; simpl;
      (split; [ | split; [ | split; [ | split ] ] ]);
      try discriminate;
      try (intros r Hr; injection Hr as <-; intros; try reflexivity;
           try contradiction; tauto).
    intros v Hv. injection Hv as <-. exists response. auto.
  - unfold result_of; simpl.
    (split; [ | split; [ | split; [ | split ] ] ]);
      try discriminate; reflexivity.
Qed.

(* ===================================================================== *)
(** * The refresh policy of the two loaders                              *)
(* ===================================================================== *)

(** C2, as the code has it: with a parsed cache (numeric timestamp, payload
    present) older than the window and a failing fetch, the directory loader
    adopts the cached directory and returns; the rate loader raises
    [ConversionError('oer_error')] and adopts nothing. *)
Theorem stale_cache_policy :
  (forall (self : ConverterCommon.t) (w : World) (t : float)
          (payload : dict CurrencyEntry),
      cache_currencies_json w = envelope t payload ->
      PrimFloat.ltb (ConverterCommon.curr_exp self)
                    (PrimFloat.sub (clock w (ticks w)) t) = true ->
      remote_currencies w = None ->
      ConverterCommon.load_currencies self w =
      (Ret tt, ConverterCommon.set_currencies payload self,
       set_ticks (S (ticks w)) w))
  /\
  (forall (self : ConverterOER.t) (w : World) (t : float)
          (payload : dict float),
      cache_rates_json w = envelope t payload ->
      PrimFloat.ltb (ConverterOER.rates_exp self)
                    (PrimFloat.sub (clock w (ticks w)) t) = true ->
      remote_rates w (ConverterOER.app_id self) = None ->
      ConverterOER.load_rates self w =
      (Raise (ConversionError "oer_error"), self, set_ticks (S (ticks w)) w)).
Proof.
  split; intros self w t payload Hfile Hold Hfetch.
  - rewrite load_currencies_eq. cbv zeta. rewrite Hfile.
    unfold envelope, cache_check, after_check. rewrite Hold, Hfetch.
    reflexivity.
  - rewrite load_rates_eq. cbv zeta. rewrite Hfile.
    unfold envelope, cache_check, after_check. rewrite Hold, Hfetch.
    reflexivity.
Qed.

Lemma stale_cache_policy_witness :
  ConverterCommon.load_currencies sample_common world_stale =
  (Ret tt, ConverterCommon.set_currencies sample_directory sample_common,
   set_ticks 1 world_stale)
  /\
  ConverterOER.load_rates sample_oer world_stale =
  (Raise (ConversionError "oer_error"), sample_oer, set_ticks 1 world_stale).
Proof.
  split.
  - apply (proj1 stale_cache_policy sample_common world_stale 0%float
                 sample_directory); reflexivity.
  - apply (proj2 stale_cache_policy sample_oer world_stale 0%float
                 sample_rates); reflexivity.
Defined.

(** C2 fails for the rate loader: the rates cache is parsed, older than the
    window, the fetch fails, and [load_rates] raises instead of adopting the
    cached table. *)
Lemma stale_rates_cache_raises :
  cache_rates_json world_stale = envelope 0%float sample_rates /\
  PrimFloat.ltb (ConverterOER.rates_exp sample_oer)
                (PrimFloat.sub (clock world_stale (ticks world_stale)) 0%float)
  = true /\
  remote_rates world_stale (ConverterOER.app_id sample_oer) = None /\
  result_of (ConverterOER.load_rates sample_oer world_stale) =
  Raise (ConversionError "oer_error") /\
  ConverterOER.rates (self_of (ConverterOER.load_rates sample_oer world_stale))
  = None.
Proof. repeat split. Qed.

(* ===================================================================== *)
(** * What a refresh writes                                              *)
(* ===================================================================== *)

(** C8, as the code has it: each save replaces the whole cache file.
    [save_currencies] stamps it with the clock reading it takes itself and
    stores the directory held in memory; [save_rates] reads no clock and
    stores the [timestamp] and [rates] members of the fetched answer.  A
    refresh (cache not fresh, fetch succeeded) leaves exactly these files. *)
Theorem save_overwrites_cache :
  (forall (self : ConverterCommon.t) (w : World),
      ConverterCommon.save_currencies self w =
      (Ret tt, self,
       set_cache_currencies
         (envelope (clock w (ticks w)) (ConverterCommon.currencies self))
         (set_ticks (S (ticks w)) w)))
  /\
  (forall (response : OERResponse) (self : ConverterOER.t) (w : World),
      ConverterOER.save_rates response self w =
      (Ret tt, self,
       set_cache_rates
         (envelope (resp_timestamp response) (resp_rates response)) w))
  /\
  (forall (self : ConverterCommon.t) (w : World)
          (response : dict CurrencyEntry),
      (forall cache,
          cache_check (ConverterCommon.curr_exp self) (clock w (ticks w))
                      (cache_currencies_json w) <> Fresh cache) ->
      remote_currencies w = Some response ->
      let done := ConverterCommon.load_currencies self w in
      let w1 := after_check (cache_currencies_json w) w in
      result_of done = Ret tt /\
      ConverterCommon.currencies (self_of done) =
        merge_currencies (ConverterCommon.currencies self) response /\
      cache_currencies_json (world_of done) =
        envelope (clock w1 (ticks w1))
                 (merge_currencies (ConverterCommon.currencies self) response))
  /\
  (forall (self : ConverterOER.t) (w : World) (response : OERResponse),
      (forall cache,
          cache_check (ConverterOER.rates_exp self) (clock w (ticks w))
                      (cache_rates_json w) <> Fresh cache) ->
      remote_rates w (ConverterOER.app_id self) = Some response ->
      let done := ConverterOER.load_rates self w in
      result_of done = Ret tt /\
      ConverterOER.rates (self_of done) = Some (resp_rates response) /\
      cache_rates_json (world_of done) =
        envelope (resp_timestamp response) (resp_rates response) /\
      ticks (world_of done) = ticks (after_check (cache_rates_json w) w)).
Proof.
  split; [ | split; [ | split ] ].
  - intros self w. reflexivity.
  - intros response self w. reflexivity.
  - intros self w response Hnot Hfetch done w1. subst done w1.
    rewrite load_currencies_eq. cbv zeta. rewrite Hfetch.
    destruct (cache_check _ _ _) as [cache | cache | ] eqn:Hchk.
    + exfalso. exact (Hnot cache eq_refl).
    + repeat split.
    + repeat split.
  - intros self w response Hnot Hfetch done. subst done.
    rewrite load_rates_eq. cbv zeta. rewrite Hfetch.
    destruct (cache_check _ _ _) as [cache | cache | ] eqn:Hchk.
    + exfalso. exact (Hnot cache eq_refl).
    + repeat split.
    + repeat split.
Qed.

Lemma save_overwrites_cache_witness :
  cache_rates_json
    (world_of (ConverterOER.load_rates sample_oer world_oer_online)) =
  envelope 500%float sample_rates.
Proof.
  apply (proj2 (proj2 (proj2 save_overwrites_cache))
               sample_oer world_oer_online (mkOERResponse 500%float sample_rates)).
  - intros cache. discriminate.
  - reflexivity.
Defined.

(** C8 fails for the rates cache: after a successful refresh at clock
    reading 1000000 the file is stamped 500, the answer's own timestamp. *)
Lemma rates_cache_stamp_is_not_now :
  clock world_oer_online (ticks world_oer_online) = 1000000%float /\
  result_of (ConverterOER.load_rates sample_oer world_oer_online) = Ret tt /\
  cache_rates_json
    (world_of (ConverterOER.load_rates sample_oer world_oer_online)) =
  envelope 500%float sample_rates /\
  PrimFloat.eqb 500%float 1000000%float = false.
Proof. repeat split. Qed.

(* ===================================================================== *)
(** * The conversion loop of [App.get_conversion]                        *)
(* ===================================================================== *)

Lemma dict_get_set {V} (d : dict V) (k k' : string) (v : V) :
  dict_get (dict_set d k v) k' =
  if String.eqb k k' then Some v else dict_get d k'.
Proof.
  induction d as [ | [k0 v0] d IH]; simpl.
  - reflexivity.
  - destruct (String.eqb_spec k0 k) as [-> | Hne]; simpl.
    + destruct (String.eqb k k'); reflexivity.
    + rewrite IH.
      destruct (String.eqb_spec k0 k') as [-> | Hne'].
      * destruct (String.eqb_spec k k') as [-> | _];
          [ contradiction | reflexivity ].
      * reflexivity.
Qed.

Lemma dict_set_twice {V} (d : dict V) (k : string) (v v' : V) :
  dict_set (dict_set d k v) k v' = dict_set d k v'.
Proof.
  induction d as [ | [k0 v0] d IH]; simpl.
  - rewrite String.eqb_refl. reflexivity.
  - destruct (String.eqb k0 k) eqn:E; simpl; rewrite E.
    + reflexivity.
    + rewrite IH. reflexivity.
Qed.

Lemma conversion_loop_cons (fuel : nat) (curr : string) (rest : list string)
      (converted : dict float) (app : App.t) (w : World) :
  App.conversion_loop fuel (curr :: rest) converted app w =
  if String.eqb curr (App.in_currency app) then
    App.conversion_loop fuel rest
      (dict_set converted curr (App.amount app)) app w
  else
    match converter_convert fuel (target_params app curr)
                            (App.converter app) w with
    | (Ret v, c', w') =>
        App.conversion_loop fuel rest
          (dict_set converted curr (py_round2 v))
          (App.set_converter_field c' app) w'
    | (Raise e, c', w') =>
        if error_type_is "unsupported" e then
          App.conversion_loop fuel rest converted
                              (App.set_converter_field c' app) w'
        else (Raise e, App.set_converter_field c' app, w')
    | (OutOfFuel, c', w') => (OutOfFuel, App.set_converter_field c' app, w')
    end.
Proof.
  cbn [App.conversion_loop]. unfold target_params. unfold_py.
  destruct (String.eqb curr (App.in_currency app)); [ reflexivity | ].
  destruct (converter_convert fuel _ (App.converter app) w)
    as [[[v | e | ] c'] w']; simpl.
  - rewrite dict_set_twice. reflexivity.
  - destruct e; simpl; try reflexivity.
    destruct (String.eqb type "unsupported"); reflexivity.
  - reflexivity.
Qed.

(** Making the table available fails only with the loader's two errors. *)
Lemma OER_ensure_rates_errors (self : ConverterOER.t) (w : World) (e : exn) :
  result_of (OER_ensure_rates self w) = Raise e ->
  e = ConversionError "oer_error" \/ e = KeyError "rates".
Proof.
  unfold OER_ensure_rates.
  destruct (ConverterOER.rates self) as [R | ]; [ discriminate | ].
  rewrite load_rates_eq. cbv zeta. unfold cache_check.
  destruct (cache_rates_json w) as [ | | [ | [ [t | ] | ] [payload | ] ] ];
    try destruct (PrimFloat.ltb _ _);
    try destruct (remote_rates w (ConverterOER.app_id self));
    unfold result_of; simpl; intros H; try discriminate;
    injection H as <-; auto.
Qed.

Lemma converter_convert_OER (fuel : nat) (p : Params) (o : ConverterOER.t)
      (w : World) :
  result_of (converter_convert fuel p (OER o) w) =
    result_of (ConverterOER.convert fuel p o w) /\
  self_of (converter_convert fuel p (OER o) w) =
    OER (self_of (ConverterOER.convert fuel p o w)) /\
  world_of (converter_convert fuel p (OER o) w) =
    world_of (ConverterOER.convert fuel p o w).
Proof.
  unfold converter_convert.
  destruct (ConverterOER.convert fuel p o w) as [[r o'] w']. auto.
Qed.

(** The scrape strategy's answer depends on the remote service only. *)
Lemma XE_value_frame (fuel : nat) (p : Params) (x x' : ConverterXE.t)
      (ev : Event) (w : World) :
  result_of (converter_convert fuel p (XE x') (add_event ev w)) =
  result_of (converter_convert fuel p (XE x) w).
Proof.
  unfold converter_convert. rewrite !XE_convert_eq. cbv zeta. simpl.
  destruct (remote_xe w _) as [r1 | ]; [ destruct (_ && _)%bool | ];
    reflexivity.
Qed.

(** A call that returns or raises 'unsupported' does not change what the
    strategy answers to any later request. *)
Lemma strategy_value_stable (fuel : nat) (p0 : Params) (c : Converter)
      (w : World) :
  let done := converter_convert (S (S fuel)) p0 c w in
  (exists v, result_of done = Ret v) \/
  result_of done = Raise (ConversionError "unsupported") ->
  forall p,
    strategy_value (S (S fuel)) (self_of done) (world_of done) p =
    strategy_value (S (S fuel)) c w p.
Proof.
  intros done Hok p. subst done. unfold strategy_value.
  destruct c as [x | o].
  - unfold converter_convert. rewrite (XE_convert_eq p0 x w). cbv zeta.
    destruct (remote_xe w (mkXEParams (amount p0) _ _)) as [r0 | ];
      [ destruct (_ && _)%bool | ]; unfold self_of, world_of; simpl;
      apply (XE_value_frame fuel p x).
  - destruct (converter_convert_OER (S (S fuel)) p0 o w) as (E1 & E2 & E3).
    rewrite E1 in Hok. rewrite E2, E3.
    rewrite !(proj1 (converter_convert_OER _ _ _ _)).
    rewrite (OER_convert_eq fuel p o w). cbv zeta.
    rewrite (OER_convert_eq fuel p0 o w) in Hok |- *. cbv zeta in Hok |- *.
    destruct (OER_ensure_rates_outcome o w) as [_ [[e He] | [Hr [R HR]]]].
    + exfalso. rewrite He in Hok.
      destruct (OER_ensure_rates_errors o w e He) as [-> | ->];
        unfold result_of in Hok; cbn [fst snd] in Hok;
        destruct Hok as [[v Hv] | Hu]; discriminate.
    + rewrite Hr, HR. rewrite self_of_triple, world_of_triple.
      rewrite OER_convert_eq. cbv zeta.
      rewrite (OER_ensure_rates_loaded _ _ R HR).
      rewrite !result_of_triple, !self_of_triple, HR, result_of_triple.
      reflexivity.
Qed.

(** The loop never lets an 'unsupported' error out. *)
Lemma conversion_loop_swallows_unsupported (fuel : nat)
      (targets : list string) :
  forall (converted : dict float) (app : App.t) (w : World),
    result_of (App.conversion_loop fuel targets converted app w) <>
    Raise (ConversionError "unsupported").
Proof.
  induction targets as [ | curr rest IH]; intros converted app w.
  - discriminate.
  - rewrite conversion_loop_cons.
    destruct (String.eqb curr (App.in_currency app)); [ apply IH | ].
    destruct (converter_convert fuel _ (App.converter app) w)
      as [[[v | e | ] c'] w'].
    + apply IH.
    + destruct (error_type_is "unsupported" e) eqn:E; [ apply IH | ].
      unfold result_of; simpl. intros H. injection H as ->. discriminate.
    + discriminate.
Qed.

(** When every target other than the input currency is answered with a
    value or with 'unsupported', the loop returns the map built by
    [loop_step], and the input parameters of the [App] are untouched. *)
Lemma conversion_loop_ok (fuel : nat) (val : Params -> outcome float)
      (targets : list string) :
  forall (converted : dict float) (app : App.t) (w : World),
    (forall p, strategy_value (S (S fuel)) (App.converter app) w p = val p) ->
    (forall curr,
        In curr targets -> curr <> App.in_currency app ->
        (exists v, val (target_params app curr) = Ret v) \/
        val (target_params app curr) = Raise (ConversionError "unsupported")) ->
    result_of (App.conversion_loop (S (S fuel)) targets converted app w) =
    Ret (fold_left (loop_step val app) targets converted).
Proof.
  induction targets as [ | curr rest IH]; intros converted app w Hval Hok.
  - reflexivity.
  - rewrite conversion_loop_cons. simpl fold_left. unfold loop_step at 2.
    destruct (String.eqb_spec curr (App.in_currency app)) as [E | N].
    + apply IH; [ exact Hval | ].
      intros c Hc. apply Hok. right. exact Hc.
    + pose proof (Hval (target_params app curr)) as Hcur.
      pose proof (strategy_value_stable fuel (target_params app curr)
                                        (App.converter app) w) as Hst.
      cbv zeta in Hst. unfold strategy_value in Hcur.
      destruct (Hok curr (or_introl eq_refl) N) as [[v Hv] | Hu].
      * rewrite Hv in Hcur.
        specialize (Hst (or_introl (ex_intro _ v Hcur))).
        destruct (converter_convert (S (S fuel)) _ (App.converter app) w)
          as [[r c'] w'].
        unfold result_of in Hcur; simpl in Hcur. subst r.
        rewrite Hv.
        apply (IH _ (App.set_converter_field c' app) w').
        -- intros p. rewrite <- Hval. apply Hst.
        -- intros c Hc. apply Hok. right. exact Hc.
      * rewrite Hu in Hcur.
        specialize (Hst (or_intror Hcur)).
        destruct (converter_convert (S (S fuel)) _ (App.converter app) w)
          as [[r c'] w'].
        unfold result_of in Hcur; simpl in Hcur. subst r.
        rewrite Hu. simpl.
        apply (IH _ (App.set_converter_field c' app) w').
        -- intros p. rewrite <- Hval. apply Hst.
        -- intros c Hc. apply Hok. right. exact Hc.
Qed.

(** The entry of the map for [k] after the rounds for [targets]. *)
Lemma loop_step_get (val : Params -> outcome float) (app : App.t)
      (targets : list string) :
  forall (converted : dict float) (k : string),
    dict_get (fold_left (loop_step val app) targets converted) k =
    if existsb (String.eqb k) targets then
      if String.eqb k (App.in_currency app) then Some (App.amount app)
      else
        match val (target_params app k) with
        | Ret v => Some (py_round2 v)
        | _ => dict_get converted k
        end
    else dict_get converted k.
Proof.
  induction targets as [ | c rest IH]; intros converted k.
  - reflexivity.
  - simpl fold_left. rewrite IH. simpl existsb.
    unfold loop_step.
    destruct (String.eqb_spec k c) as [-> | Hkc]; simpl.
    + destruct (String.eqb c (App.in_currency app)) eqn:Ein.
      * destruct (existsb _ rest); [ reflexivity | ].
        rewrite dict_get_set, String.eqb_refl. reflexivity.
      * destruct (val (target_params app c)) as [v | e | ];
          destruct (existsb _ rest); try reflexivity.
        rewrite dict_get_set, String.eqb_refl. reflexivity.
    + assert (Hck : String.eqb c k = false).
      { apply String.eqb_neq. intros ->. contradiction. }
      assert (Hsame :
                dict_get
                  (if String.eqb c (App.in_currency app)
                   then dict_set converted c (App.amount app)
                   else match val (target_params app c) with
                        | Ret v => dict_set converted c (py_round2 v)
                        | _ => converted
                        end) k = dict_get converted k).
      { destruct (String.eqb c (App.in_currency app));
          [ | destruct (val (target_params app c)) ];
          try rewrite dict_get_set, Hck; reflexivity. }
      rewrite Hsame. reflexivity.
Qed.

Lemma existsb_eqb_In (k : string) (l : list string) :
  In k l -> existsb (String.eqb k) l = true.
Proof.
  intros H. apply existsb_exists. exists k. split; [ exact H | ].
  apply String.eqb_refl.
Qed.

(** [get_conversion] is the loop over the targets, started on an empty
    map. *)
Lemma get_conversion_eq (fuel : nat) (app : App.t) (w : World)
      (targets : list string) :
  targets_of app = Some targets ->
  App.get_conversion fuel app w =
  App.conversion_loop fuel targets []
                      (App.set_out_currs (App.OutMany targets) app) w.
Proof.
  unfold targets_of, all_targets, App.get_conversion. unfold_py.
  destruct (App.out_currs app) as [[code | ] | l]; intros H;
    try discriminate; injection H as <-; [ reflexivity | ].
  destruct (cfg_override_currencies (App.config app)); reflexivity.
Qed.

(* ===================================================================== *)
(** * Strategy calls made by the loop                                    *)
(* ===================================================================== *)

Lemma converter_convert_trace (fuel : nat) (p : Params) (c : Converter)
      (w : World) :
  exists new,
    trace (world_of (converter_convert (S (S fuel)) p c w)) = new ++ trace w /\
    Forall (call_with_target (out_currency p)) new.
Proof.
  destruct c as [x | o].
  - unfold converter_convert. rewrite XE_convert_eq. cbv zeta.
    exists [EvConvert ConverterXE.name p].
    split.
    + destruct (remote_xe w _) as [r | ]; [ destruct (_ && _)%bool | ];
        reflexivity.
    + constructor; [ | constructor ]. exists ConverterXE.name, p. auto.
  - rewrite (proj2 (proj2 (converter_convert_OER _ _ _ _))).
    rewrite OER_convert_eq. cbv zeta.
    destruct (OER_ensure_rates_outcome o w) as [Htr [[e He] | [Hr [R HR]]]].
    + rewrite He, world_of_triple. simpl. rewrite Htr.
      exists [EvConvert ConverterOER.name p]. split; [ reflexivity | ].
      constructor; [ | constructor ]. exists ConverterOER.name, p. auto.
    + rewrite Hr, HR, world_of_triple.
      destruct (pivot_call R p) as [p' | ] eqn:Hcall; simpl; rewrite Htr.
      * destruct (pivot_call_inv _ _ _ Hcall)
          as (_ & _ & r & usd & _ & _ & ->).
        exists [EvConvert ConverterOER.name
                          (mkParams usd "USD" (out_currency p));
                EvConvert ConverterOER.name p].
        split; [ reflexivity | ].
        repeat constructor; eexists _, _; split; reflexivity.
      * exists [EvConvert ConverterOER.name p]. split; [ reflexivity | ].
        constructor; [ | constructor ]. exists ConverterOER.name, p. auto.
Qed.

(** The loop calls the strategy only for targets other than the input
    currency. *)
Lemma conversion_loop_trace (fuel : nat) (targets : list string) :
  forall (converted : dict float) (app : App.t) (w : World),
  exists new,
    trace (world_of (App.conversion_loop (S (S fuel)) targets converted app w))
    = new ++ trace w /\
    Forall (call_for_other (App.in_currency app)) new.
Proof.
  induction targets as [ | curr rest IH]; intros converted app w.
  - exists []. split; [ reflexivity | constructor ].
  - rewrite conversion_loop_cons.
    destruct (String.eqb_spec curr (App.in_currency app)) as [E | N];
      [ apply IH | ].
    destruct (converter_convert_trace fuel (target_params app curr)
                                      (App.converter app) w)
      as (new1 & Hnew1 & Hall1).
    assert (Hall1' : Forall (call_for_other (App.in_currency app)) new1).
    { eapply Forall_impl; [ | exact Hall1 ].
      intros ev (s & p & -> & Hp). exists s, p. split; [ reflexivity | ].
      rewrite Hp. exact N. }
    destruct (converter_convert (S (S fuel)) _ (App.converter app) w)
      as [[r c'] w'].
    rewrite world_of_triple in Hnew1.
    assert (Hrest :
              forall acc,
              exists new,
                trace (world_of
                         (App.conversion_loop (S (S fuel)) rest acc
                            (App.set_converter_field c' app) w'))
                = new ++ trace w /\
                Forall (call_for_other (App.in_currency app)) new).
    { intros acc.
      destruct (IH acc (App.set_converter_field c' app) w')
        as (new2 & Hnew2 & Hall2).
      exists (new2 ++ new1). rewrite Hnew2, Hnew1, app_assoc.
      split; [ reflexivity | ].
      apply Forall_app. split; assumption. }
    destruct r as [v | e | ].
    + apply Hrest.
    + destruct (error_type_is "unsupported" e); [ apply Hrest | ].
      exists new1. rewrite world_of_triple. auto.
    + exists new1. rewrite world_of_triple. auto.
Qed.

Lemma presented_set_input (app : App.t) (m : dict float) (k : string) :
  presented app m -> k = App.in_currency app ->
  presented app (dict_set m k (App.amount app)).
Proof.
  intros Hm -> k' x. rewrite dict_get_set.
  destruct (String.eqb_spec (App.in_currency app) k') as [<- | Hne].
  - intros H. injection H as <-. split; [ reflexivity | contradiction ].
  - apply Hm.
Qed.

Lemma presented_set_rounded (app : App.t) (m : dict float) (k : string)
      (v : float) :
  presented app m -> k <> App.in_currency app ->
  presented app (dict_set m k (py_round2 v)).
Proof.
  intros Hm Hk k' x. rewrite dict_get_set.
  destruct (String.eqb_spec k k') as [<- | Hne].
  - intros H. injection H as <-. split; [ contradiction | ].
    intros _. exists v. reflexivity.
  - apply Hm.
Qed.

Lemma conversion_loop_presented (fuel : nat) (targets : list string) :
  forall (converted : dict float) (app : App.t) (w : World) (m : dict float),
    presented app converted ->
    result_of (App.conversion_loop fuel targets converted app w) = Ret m ->
    presented app m /\
    (dict_get converted (App.in_currency app) = Some (App.amount app) \/
     In (App.in_currency app) targets ->
     dict_get m (App.in_currency app) = Some (App.amount app)).
Proof.
  induction targets as [ | curr rest IH]; intros converted app w m Hpres Hres.
  - injection Hres as <-. split; [ exact Hpres | ].
    intros [H | []]. exact H.
  - rewrite conversion_loop_cons in Hres.
    destruct (String.eqb_spec curr (App.in_currency app)) as [E | N].
    + destruct (IH _ app w m (presented_set_input app converted curr Hpres E)
                   Hres) as [Hm Hin].
      split; [ exact Hm | ]. intros _. apply Hin. left.
      rewrite dict_get_set, E, String.eqb_refl. reflexivity.
    + assert (Hkeep :
                forall acc c' w',
                  presented app acc ->
                  dict_get acc (App.in_currency app) =
                    dict_get converted (App.in_currency app) ->
                  result_of (App.conversion_loop fuel rest acc
                               (App.set_converter_field c' app) w') = Ret m ->
                  presented app m /\
                  (dict_get converted (App.in_currency app)
                   = Some (App.amount app) \/
                   In (App.in_currency app) (curr :: rest) ->
                   dict_get m (App.in_currency app) = Some (App.amount app))).
      { intros acc c' w' Hacc Hsame Hr.
        destruct (IH acc (App.set_converter_field c' app) w' m Hacc Hr)
          as [Hm Hin].
        split; [ exact Hm | ].
        intros [H | [H | H]].
        - apply Hin. left. simpl. rewrite Hsame. exact H.
        - contradiction.
        - apply Hin. right. exact H. }
      destruct (converter_convert fuel _ (App.converter app) w)
        as [[[v | e | ] c'] w'].
      * apply (Hkeep (dict_set converted curr (py_round2 v)) c' w');
          [ | | exact Hres ].
        -- apply presented_set_rounded; assumption.
        -- rewrite dict_get_set.
           destruct (String.eqb_spec curr (App.in_currency app));
             [ contradiction | reflexivity ].
      * destruct (error_type_is "unsupported" e); [ | discriminate ].
        apply (Hkeep converted c' w'); [ exact Hpres | reflexivity | exact Hres ].
      * discriminate.
Qed.

(* ===================================================================== *)
(** * [App.run] and [main] unfolded                                      *)
(* ===================================================================== *)

Lemma run_eq (fuel : nat) (app : App.t) (w : World) :
  App.run fuel app w =
  if App.list_currs app then
    (Ret (RunCurrencies
            (map (fun kv => (fst kv, symbol (snd kv), name (snd kv)))
                 (converter_currencies (App.converter app)))),
     app, w)
  else
    match App.get_conversion fuel app w with
    | (Ret m, app', w') =>
        (Ret (RunConversion
                (mkConversion (App.amount app) (App.in_currency app) m)),
         app', logged app' w')
    | (Raise e, app', w') => (Raise e, app', w')
    | (OutOfFuel, app', w') => (OutOfFuel, app', w')
    end.
Proof.
  unfold App.run, App.log, converter_list_currencies,
    ConverterCommon.list_currencies, logged, converter_currencies.
  unfold_py.
  destruct (App.list_currs app).
  - destruct app as [cfg c lc a i o]; reflexivity.
  - destruct (App.get_conversion fuel app w) as [[[m | e | ] app'] w'];
      try reflexivity.
    destruct (cfg_log_filename (App.config app')); reflexivity.
Qed.

Lemma main_eq (fuel : nat) (params : Request) (override_converter : string)
      (list_currs first_try : bool) (w : World) :
  main (S fuel) params override_converter list_currs first_try tt w =
  match App.init params override_converter list_currs tt w with
  | (Ret app, _, w1) =>
      let w2 :=
        add_event (EvRun (converter_name (App.converter app)) params) w1 in
      match App.run (S fuel) app w2 with
      | (Ret out, _, w3) =>
          (Ret (0%Z, if negb list_currs then Json out else Plain out), tt, w3)
      | (Raise e, _, w3) =>
          if is_ConversionError e then
            if negb first_try then
              (Ret (2%Z, Message "Conversion failed."), tt, w3)
            else if error_type_is "xe_error" e then
              wrap_retry (main fuel params "oer" false false tt w3)
            else if error_type_is "oer_error" e then
              wrap_retry (main fuel params "xe" false false tt w3)
            else (Raise UnboundLocalError, tt, w3)
          else (Raise e, tt, w3)
      | (OutOfFuel, _, w3) => (OutOfFuel, tt, w3)
      end
  | (Raise e, _, w1) =>
      if init_error e then (Ret (init_failure e), tt, w1)
      else (Raise e, tt, w1)
  | (OutOfFuel, _, w1) => (OutOfFuel, tt, w1)
  end.
Proof.
  cbn [main]. unfold_py. unfold wrap_retry, init_failure.
  destruct (App.init params override_converter list_currs tt w)
    as [[[app | e | ] []] w1]; cbn [init_error].
  - cbv zeta.
    destruct (App.run (S fuel) app _) as [[[out | e | ] app'] w3];
      try reflexivity.
    destruct e; cbn [is_ConversionError error_type_is]; try reflexivity.
    destruct first_try; cbn [negb]; [ | reflexivity ].
    destruct (String.eqb_spec type "xe_error") as [-> | Hxe].
    + cbn [String.eqb Ascii.eqb Bool.eqb].
      destruct (main fuel params "oer" false false tt w3)
        as [[[r | e | ] []] w4]; reflexivity.
    + destruct (String.eqb type "oer_error"); [ | reflexivity ].
      destruct (main fuel params "xe" false false tt w3)
        as [[[r | e | ] []] w4]; reflexivity.
  - destruct e; reflexivity.
  - reflexivity.
Qed.

Lemma load_currencies_trace (self : ConverterCommon.t) (w : World) :
  trace (world_of (ConverterCommon.load_currencies self w)) = trace w.
Proof.
  rewrite load_currencies_eq. cbv zeta. unfold cache_check, after_check.
  destruct (cache_currencies_json w) as [ | | [ | [ [t | ] | ] [payload | ] ] ];
    try destruct (PrimFloat.ltb _ _);
    try destruct (remote_currencies w); reflexivity.
Qed.

Lemma build_converter_eq (override_converter : string) (w : World) :
  build_converter override_converter tt w =
  match config_json w with
  | None => (Raise FileNotFoundError, tt, w)
  | Some config =>
      let blank :=
        ConverterCommon.mk (cfg_verbosity config)
          (PrimFloat.mul (cfg_currencies_expiration config) 60%float) [] in
      match ConverterCommon.load_currencies blank w with
      | (Ret _, common, w1) =>
          (Ret (config,
                if selects_XE config override_converter
                then XE (ConverterXE.mk common None)
                else OER (ConverterOER.mk common
                            (cfg_app_id (cfg_oer_config config))
                            (PrimFloat.mul
                               (cfg_rates_expiration (cfg_oer_config config))
                               60%float)
                            None)),
           tt, w1)
      | (Raise e, _, w1) => (Raise e, tt, w1)
      | (OutOfFuel, _, w1) => (OutOfFuel, tt, w1)
      end
  end.
Proof.
  unfold build_converter, App.load_config, App.set_converter, selects_XE,
    ConverterXE.init, ConverterOER.init, ConverterCommon.init.
  unfold_py.
  destruct (config_json w) as [config | ]; [ | reflexivity ].
  cbv zeta.
  destruct (str_contains "xe" override_converter);
    [ | destruct (str_contains "oer" override_converter);
        [ | destruct (String.eqb (cfg_converter config) "ConverterXE") ] ];
    destruct (ConverterCommon.load_currencies _ w) as [[[[] | e | ] c] w1];
    reflexivity.
Qed.

Lemma init_eq (params : Request) (override_converter : string)
      (list_currs : bool) (w : World) :
  App.init params override_converter list_currs tt w =
  match build_converter override_converter tt w with
  | (Ret (config, converter), _, w1) =>
      if list_currs then
        (Ret (App.mk config converter list_currs (req_amount params)
                     (req_in_currency params) (App.OutOne None)), tt, w1)
      else
        match App.check_currency (converter_currencies converter)
                                 (Some (req_in_currency params)) which_in,
              App.check_currency (converter_currencies converter)
                                 (req_out_currency params) which_out with
        | Ret (Some code), Ret out_c =>
            (Ret (App.mk config converter list_currs (req_amount params) code
                         (App.OutOne out_c)), tt, w1)
        | Ret None, Ret _ => (Raise TypeError, tt, w1)
        | Ret _, Raise e => (Raise e, tt, w1)
        | Ret _, OutOfFuel => (OutOfFuel, tt, w1)
        | Raise e, _ => (Raise e, tt, w1)
        | OutOfFuel, _ => (OutOfFuel, tt, w1)
        end
  | (Raise e, _, w1) => (Raise e, tt, w1)
  | (OutOfFuel, _, w1) => (OutOfFuel, tt, w1)
  end.
Proof.
  unfold App.init, build_converter. unfold_py.
  destruct (App.load_config tt w) as [[[config | e | ] []] w0];
    try reflexivity.
  destruct (App.set_converter config override_converter tt w0)
    as [[[converter | e | ] []] w1]; try reflexivity.
  destruct list_currs; [ reflexivity | ].
  destruct (App.check_currency _ (Some _) which_in) as [[code | ] | e | ];
    try reflexivity;
    destruct (App.check_currency _ _ which_out) as [out_c | e | ];
    reflexivity.
Qed.

Lemma build_converter_trace (override_converter : string) (w : World) :
  trace (world_of (build_converter override_converter tt w)) = trace w.
Proof.
  rewrite build_converter_eq.
  destruct (config_json w) as [config | ]; [ | reflexivity ].
  cbv zeta.
  pose proof (load_currencies_trace
                (ConverterCommon.mk (cfg_verbosity config)
                   (PrimFloat.mul (cfg_currencies_expiration config) 60%float)
                   []) w) as H.
  destruct (ConverterCommon.load_currencies _ w) as [[[[] | e | ] c] w1];
    exact H.
Qed.

Lemma init_trace (params : Request) (override_converter : string)
      (list_currs : bool) (w : World) :
  trace (world_of (App.init params override_converter list_currs tt w))
  = trace w.
Proof.
  rewrite init_eq.
  pose proof (build_converter_trace override_converter w) as H.
  destruct (build_converter override_converter tt w)
    as [[[[config converter] | e | ] []] w1];
    try exact H.
  destruct list_currs; [ exact H | ].
  destruct (App.check_currency (converter_currencies converter)
                               (Some (req_in_currency params)) which_in)
    as [[code | ] | e | ];
    destruct (App.check_currency (converter_currencies converter)
                                 (req_out_currency params) which_out)
    as [out_c | e' | ];
    exact H.
Qed.

(** [run] makes no [EvRun] entry of its own, and never lets an
    'unsupported' error out. *)
Lemma run_runs (fuel : nat) (app : App.t) (w : World) :
  runs (world_of (App.run (S (S fuel)) app w)) = runs w.
Proof.
  rewrite run_eq.
  destruct (App.list_currs app); [ reflexivity | ].
  assert (Hloop :
            runs (world_of (App.get_conversion (S (S fuel)) app w)) = runs w).
  { destruct (targets_of app) as [targets | ] eqn:Ht.
    - rewrite (get_conversion_eq _ _ _ _ Ht).
      destruct (conversion_loop_trace fuel targets []
                  (App.set_out_currs (App.OutMany targets) app) w)
        as (new & Hnew & Hall).
      unfold runs. rewrite Hnew, filter_app.
      replace (filter is_run new) with (@nil Event); [ reflexivity | ].
      clear Hnew. induction Hall as [ | ev l (s & p & -> & _) _ IH].
      + reflexivity.
      + simpl. exact IH.
    - unfold targets_of in Ht. unfold App.get_conversion. unfold_py.
      destruct (App.out_currs app) as [[code | ] | l]; try discriminate.
      reflexivity. }
  destruct (App.get_conversion (S (S fuel)) app w) as [[[m | e | ] app'] w'];
    try exact Hloop.
  unfold logged.
  destruct (cfg_log_filename (App.config app')); exact Hloop.
Qed.

Lemma run_swallows_unsupported (fuel : nat) (app : App.t) (w : World) :
  result_of (App.run fuel app w) <> Raise (ConversionError "unsupported").
Proof.
  rewrite run_eq.
  destruct (App.list_currs app); [ discriminate | ].
  assert (Hloop :
            result_of (App.get_conversion fuel app w)
            <> Raise (ConversionError "unsupported")).
  { destruct (targets_of app) as [targets | ] eqn:Ht.
    - rewrite (get_conversion_eq _ _ _ _ Ht).
      apply conversion_loop_swallows_unsupported.
    - unfold targets_of in Ht. unfold App.get_conversion. unfold_py.
      destruct (App.out_currs app) as [[code | ] | l]; try discriminate. }
  destruct (App.get_conversion fuel app w) as [[[m | e | ] app'] w'];
    [ discriminate | | discriminate ].
  unfold result_of in *. cbn [fst snd] in *.
  intros H. apply Hloop. injection H as ->. reflexivity.
Qed.

(* ===================================================================== *)
(** * Unsupported targets, rounding and the input currency               *)
(* ===================================================================== *)

(** C5: an 'unsupported' error never leaves [App.run], so it cannot reach
    the retry of [main].  When the strategy answers every target other than
    the input currency with a value or with 'unsupported', the conversion
    returns a map in which the unsupported targets are absent and every other
    target is present.  And whenever [run] does not raise one of the two
    network failures, [main] makes that one run and no other. *)
Theorem unsupported_target_is_skipped :
  (forall (fuel : nat) (app : App.t) (w : World),
      result_of (App.run fuel app w) <> Raise (ConversionError "unsupported"))
  /\
  (forall (fuel : nat) (app : App.t) (w : World) (targets : list string),
      targets_of app = Some targets ->
      let val := strategy_value (S (S fuel)) (App.converter app) w in
      (forall curr,
          In curr targets -> curr <> App.in_currency app ->
          (exists v, val (target_params app curr) = Ret v) \/
          val (target_params app curr) = Raise (ConversionError "unsupported")) ->
      exists m,
        result_of (App.get_conversion (S (S fuel)) app w) = Ret m /\
        forall curr,
          In curr targets ->
          (curr = App.in_currency app ->
           dict_get m curr = Some (App.amount app)) /\
          (curr <> App.in_currency app ->
           val (target_params app curr) = Raise (ConversionError "unsupported") ->
           dict_get m curr = None) /\
          (curr <> App.in_currency app ->
           forall v, val (target_params app curr) = Ret v ->
                     dict_get m curr = Some (py_round2 v)))
  /\
  (forall (fuel : nat) (params : Request) (override_converter : string)
          (first_try : bool) (w : World) (app : App.t) (w1 : World),
      App.init params override_converter false tt w = (Ret app, tt, w1) ->
      let started := EvRun (converter_name (App.converter app)) params in
      let ran := App.run (S (S fuel)) app (add_event started w1) in
      result_of ran <> Raise (ConversionError "xe_error") ->
      result_of ran <> Raise (ConversionError "oer_error") ->
      runs (world_of (main (S (S fuel)) params override_converter false
                           first_try tt w))
      = started :: runs w).
Proof.
  split; [ | split ].
  - apply run_swallows_unsupported.
  - intros fuel app w targets Ht val Hok.
    rewrite (get_conversion_eq _ _ _ _ Ht).
    exists (fold_left (loop_step val app) targets []).
    split.
    + rewrite (conversion_loop_ok fuel val targets []
                 (App.set_out_currs (App.OutMany targets) app) w).
      * reflexivity.
      * intros p. reflexivity.
      * exact Hok.
    + intros curr Hin. rewrite loop_step_get, (existsb_eqb_In _ _ Hin).
      split; [ | split ].
      * intros ->. rewrite String.eqb_refl. reflexivity.
      * intros N Hu. apply String.eqb_neq in N. rewrite N, Hu. reflexivity.
      * intros N v Hv. apply String.eqb_neq in N. rewrite N, Hv. reflexivity.
  - intros fuel params ov ft w app w1 Hinit started ran Hxe Hoer.
    subst ran. rewrite main_eq, Hinit. cbv zeta. fold started.
    pose proof (run_runs fuel app (add_event started w1)) as Hruns.
    pose proof (init_trace params ov false w) as Htr.
    rewrite Hinit, world_of_triple in Htr.
    assert (Hone : runs (add_event started w1) = started :: runs w).
    { unfold runs. simpl. rewrite Htr. reflexivity. }
    destruct (App.run (S (S fuel)) app (add_event started w1))
      as [[[out | e | ] app'] w3];
      rewrite world_of_triple in Hruns; rewrite <- Hone, <- Hruns;
      try reflexivity.
    destruct e; try reflexivity. cbn [is_ConversionError error_type_is].
    destruct (negb ft); [ reflexivity | ].
    destruct (String.eqb_spec type "xe_error") as [-> | _];
      [ exfalso; apply Hxe; reflexivity | ].
    destruct (String.eqb_spec type "oer_error") as [-> | _];
      [ exfalso; apply Hoer; reflexivity | reflexivity ].
Qed.

Lemma unsupported_target_is_skipped_witness :
  exists m,
    result_of (App.get_conversion 2 (sample_app 100%float "EUR") world_fresh)
    = Ret m /\
    dict_get m "BTC" = None /\
    dict_get m "EUR" = Some 100%float /\
    dict_get m "USD"
    = Some (py_round2 (PrimFloat.div 100%float 0.9%float)).
Proof.
  destruct (proj1 (proj2 unsupported_target_is_skipped)
                  0 (sample_app 100%float "EUR") world_fresh
                  ["USD"; "EUR"; "GBP"; "BTC"] eq_refl) as (m & Hm & Hall).
  - intros curr [<- | [<- | [<- | [<- | []]]]] N.
    + left. eexists. vm_compute. reflexivity.
    + contradiction.
    + left. eexists. vm_compute. reflexivity.
    + right. vm_compute. reflexivity.
  - exists m. split; [ exact Hm | ]. split; [ | split ].
    + apply (Hall "BTC"); [ simpl; tauto | discriminate | ].
      vm_compute. reflexivity.
    + apply (Hall "EUR"); [ simpl; tauto | reflexivity ].
    + apply (Hall "USD"); [ simpl; tauto | discriminate | ].
      vm_compute. reflexivity.
Defined.

(** C7, as the code has it: while building the map the strategy is never
    called for a target equal to the input currency; in the map returned,
    the entry under the input currency is the original amount as given (not
    rounded), and every other entry is a value rounded by [round(., 2)]. *)
Theorem converted_amounts_rounded_or_original :
  forall (fuel : nat) (app : App.t) (w : World) (targets : list string),
    targets_of app = Some targets ->
    let done := App.get_conversion (S (S fuel)) app w in
    (exists new,
        trace (world_of done) = new ++ trace w /\
        Forall (call_for_other (App.in_currency app)) new) /\
    (forall m,
        result_of done = Ret m ->
        (In (App.in_currency app) targets ->
         dict_get m (App.in_currency app) = Some (App.amount app)) /\
        (forall k x,
            dict_get m k = Some x ->
            (k = App.in_currency app -> x = App.amount app) /\
            (k <> App.in_currency app -> exists v, x = py_round2 v))).
Proof.
  intros fuel app w targets Ht done. subst done.
  rewrite (get_conversion_eq _ _ _ _ Ht).
  split.
  - apply (conversion_loop_trace fuel targets []
             (App.set_out_currs (App.OutMany targets) app) w).
  - intros m Hm.
    destruct (conversion_loop_presented (S (S fuel)) targets []
                (App.set_out_currs (App.OutMany targets) app) w m)
      as [Hpres Hin].
    + intros k x H. discriminate.
    + exact Hm.
    + split; [ | exact Hpres ].
      intros H. apply Hin. right. exact H.
Qed.

Lemma converted_amounts_rounded_or_original_witness :
  (exists new,
      trace (world_of (App.get_conversion
                         2 (sample_app 0.125%float "USD") world_fresh))
      = new ++ trace world_fresh /\
      Forall (call_for_other "USD") new) /\
  (forall m,
      result_of (App.get_conversion
                   2 (sample_app 0.125%float "USD") world_fresh) = Ret m ->
      dict_get m "USD" = Some 0.125%float).
Proof.
  pose proof (converted_amounts_rounded_or_original
                0 (sample_app 0.125%float "USD") world_fresh
                ["USD"; "EUR"; "GBP"; "BTC"] eq_refl) as [Hcalls Hmap].
  split; [ exact Hcalls | ].
  intros m Hm. apply (proj1 (Hmap m Hm)). simpl. tauto.
Defined.

(** C7 fails for the input currency: converting 0.125 USD to every currency
    presents 0.125 under USD, and [round(0.125, 2)] is 0.12. *)
Lemma input_amount_is_not_rounded :
  result_of (App.get_conversion 2 (sample_app 0.125%float "USD") world_fresh)
  = Ret [ ("USD", 0.125%float); ("EUR", 0.11%float); ("GBP", 0.1%float) ] /\
  py_round2 0.125%float = 0.12%float /\
  PrimFloat.eqb 0.12%float 0.125%float = false.
Proof. repeat split. Qed.

(* ===================================================================== *)
(** * Currency tokens that do not resolve                                *)
(* ===================================================================== *)

(** C10: let [tok] be neither a code of the converter's directory nor
    matched as a symbol.  As the output currency, [tok] makes [App(...)] the
    very object (and world) that a request without output currency makes:
    its output currency is [None], and [get_conversion] loops over every
    directory code (or the configured override list).  As the input
    currency, [tok] makes [main] return the client error, severity 1. *)
Theorem unresolved_output_currency_means_all :
  forall (fuel : nat) (a : float) (i tok override_converter : string)
         (out : option string) (first_try : bool)
         (w : World) (config : Config) (converter : Converter) (w1 : World),
    build_converter override_converter tt w = (Ret (config, converter), tt, w1) ->
    dict_mem (converter_currencies converter) tok = false ->
    App.find_symbol tok (converter_currencies converter) = None ->
    App.init (mkRequest a i (Some tok)) override_converter false tt w
    = App.init (mkRequest a i None) override_converter false tt w
    /\
    (forall app w',
        result_of (App.init (mkRequest a i (Some tok)) override_converter
                            false tt w) = Ret app ->
        App.out_currs app = App.OutOne None /\
        App.get_conversion fuel app w'
        = App.conversion_loop fuel (all_targets app) []
            (App.set_out_currs (App.OutMany (all_targets app)) app) w')
    /\
    main (S fuel) (mkRequest a tok out) override_converter false first_try tt w
    = (Ret (1%Z,
            Message
              "Given input currency is not a valid currency code or symbol."),
       tt, w1).
Proof.
  intros fuel a i tok ov out ft w config converter w1 Hbuild Hcode Hsym.
  assert (Hout : App.check_currency (converter_currencies converter)
                                    (Some tok) which_out = Ret None).
  { unfold App.check_currency. rewrite Hcode, Hsym. reflexivity. }
  assert (Hin : App.check_currency (converter_currencies converter)
                                   (Some tok) which_in = Raise ValueError).
  { unfold App.check_currency. rewrite Hcode, Hsym. reflexivity. }
  split; [ | split ].
  - rewrite !init_eq, Hbuild. cbn [req_out_currency req_in_currency].
    rewrite Hout. reflexivity.
  - intros app w'. rewrite init_eq, Hbuild.
    cbn [req_out_currency req_in_currency req_amount]. rewrite Hout.
    destruct (App.check_currency (converter_currencies converter) (Some i)
                                 which_in) as [[code | ] | e | ];
      rewrite result_of_triple; intros H; try discriminate.
    injection H as <-. split; [ reflexivity | ].
    apply get_conversion_eq. reflexivity.
  - rewrite main_eq, init_eq, Hbuild.
    cbn [req_out_currency req_in_currency]. rewrite Hin. reflexivity.
Qed.

Lemma unresolved_output_currency_means_all_witness :
  App.init (mkRequest 100%float "EUR" (Some "ZZZ")) "" false tt world_fresh
  = App.init (mkRequest 100%float "EUR" None) "" false tt world_fresh
  /\
  main 3 (mkRequest 100%float "ZZZ" None) "" false true tt world_fresh
  = (Ret (1%Z,
          Message
            "Given input currency is not a valid currency code or symbol."),
     tt, set_ticks 1 world_fresh).
Proof.
  pose proof (unresolved_output_currency_means_all
                2 100%float "EUR" "ZZZ" "" None true world_fresh
                (sample_config "ConverterOER") (OER sample_oer)
                (set_ticks 1 world_fresh) eq_refl eq_refl eq_refl)
    as (Hsame & _ & Hfail).
  split; [ exact Hsame | exact Hfail ].
Defined.

(* ===================================================================== *)
(** * Failures before and during the conversion                          *)
(* ===================================================================== *)



(** C6 at a cache file without payload: the file parses and carries a
    timestamp but no ['currencies'] member, the fetch fails, and the loader
    raises [KeyError('currencies')]; [main] does not catch it and returns no
    severity at all. *)
Theorem payloadless_cache_escapes :
  result_of (ConverterCommon.load_currencies sample_common world_no_payload)
  = Raise (KeyError "currencies") /\
  result_of (main 3 (mkRequest 100%float "EUR" None) "" false true tt
                  world_no_payload)
  = Raise (KeyError "currencies").
Proof. split; reflexivity. Qed.

(** C1 at a world where both strategies fail: the scrape request fails, the
    retry with the rate-table strategy finds an outdated rates cache and a
    failing fetch.  Two runs are made, XE then OER, with the same request;
    the retry returns [[2, 'Conversion failed.']] and the outer call wraps
    it: [main] returns [[0, [2, 'Conversion failed.']]] to its caller. *)
Theorem both_strategies_fail_returns_zero :
  let request := mkRequest 100%float "EUR" (Some "GBP") in
  let done := main 3 request "" false true tt world_stale in
  result_of done = Ret (0%Z, Returned 2%Z (Message "Conversion failed.")) /\
  runs (world_of done) = [ EvRun "OER" request; EvRun "XE" request ] /\
  result_of (main 3 request "oer" false false tt world_stale)
  = Ret (2%Z, Message "Conversion failed.").
Proof. repeat split. Qed.

Lemma OER_convert_formula_witness :
  result_of (ConverterOER.convert
               2 (mkParams 100%float "EUR" "GBP") sample_oer world_fresh)
  = Ret (PrimFloat.mul (PrimFloat.div 100%float 0.9%float) 0.8%float).
Proof.
  pose proof (OER_convert_formula
                0 (mkParams 100%float "EUR" "GBP") sample_oer world_fresh
                sample_rates 0.9%float 0.8%float
                eq_refl eq_refl eq_refl eq_refl) as (_ & _ & Hpivot & _).
  rewrite Hpivot; [ reflexivity | discriminate | discriminate ].
Defined.

(* ===================================================================== *)
(** * The retry of [main] is bounded                                     *)
(* ===================================================================== *)

Lemma converter_convert_errors (fuel : nat) (p : Params) (c : Converter)
      (w : World) (t : string) :
  result_of (converter_convert (S (S fuel)) p c w) = Raise (ConversionError t) ->
  t = "unsupported" \/ t = network_error_of c.
Proof.
  destruct c as [x | o].
  - unfold converter_convert. rewrite XE_convert_eq. cbv zeta.
    destruct (remote_xe w _) as [r | ]; [ destruct (_ && _)%bool | ];
      rewrite result_of_triple; intros H; try discriminate;
      injection H as <-; auto.
  - rewrite (proj1 (converter_convert_OER _ _ _ _)).
    rewrite OER_convert_eq. cbv zeta.
    destruct (OER_ensure_rates_outcome o w) as [_ [[e He] | [Hr [R HR]]]].
    + rewrite He, result_of_triple.
      destruct (OER_ensure_rates_errors o w e He) as [-> | ->];
        intros H; try discriminate. injection H as <-. auto.
    + rewrite Hr, HR, result_of_triple. unfold pivot_value.
      destruct (String.eqb (in_currency p) "USD").
      * destruct (dict_get R (out_currency p)); intros H; try discriminate.
        injection H as <-. auto.
      * destruct (String.eqb (out_currency p) "USD");
          (destruct (dict_get R (in_currency p)) as [r | ];
           [ destruct (float_truediv_cases (amount p) r) as [E | E];
             rewrite E
           | ]);
          try destruct (dict_get R (out_currency p));
          intros H; try discriminate; injection H as <-; auto.
Qed.

Lemma converter_convert_same_class (fuel : nat) (p : Params) (c : Converter)
      (w : World) :
  network_error_of (self_of (converter_convert fuel p c w))
  = network_error_of c.
Proof.
  destruct c as [x | o]; unfold converter_convert.
  - destruct (ConverterXE.convert p x w) as [[r x'] w']. reflexivity.
  - destruct (ConverterOER.convert fuel p o w) as [[r o'] w']. reflexivity.
Qed.

Lemma conversion_loop_errors (fuel : nat) (targets : list string) :
  forall (converted : dict float) (app : App.t) (w : World) (t : string),
    result_of (App.conversion_loop (S (S fuel)) targets converted app w)
    = Raise (ConversionError t) ->
    t = network_error_of (App.converter app).
Proof.
  induction targets as [ | curr rest IH]; intros converted app w t.
  - discriminate.
  - rewrite conversion_loop_cons.
    destruct (String.eqb curr (App.in_currency app)); [ apply IH | ].
    pose proof (converter_convert_errors fuel (target_params app curr)
                  (App.converter app) w) as Herr.
    pose proof (converter_convert_same_class (S (S fuel))
                  (target_params app curr) (App.converter app) w) as Hcls.
    destruct (converter_convert (S (S fuel)) _ (App.converter app) w)
      as [[[v | e | ] c'] w'];
      rewrite ?self_of_triple, ?result_of_triple in *.
    + intros H. rewrite <- Hcls.
      apply (IH _ (App.set_converter_field c' app) w' t H).
    + destruct (error_type_is "unsupported" e) eqn:Eu.
      * intros H. rewrite <- Hcls.
        apply (IH _ (App.set_converter_field c' app) w' t H).
      * rewrite result_of_triple. intros H. injection H as ->.
        destruct (Herr t eq_refl) as [-> | ->];
          [ simpl in Eu; discriminate | reflexivity ].
    + discriminate.
Qed.

Lemma run_errors (fuel : nat) (app : App.t) (w : World) (t : string) :
  result_of (App.run (S (S fuel)) app w) = Raise (ConversionError t) ->
  t = network_error_of (App.converter app).
Proof.
  rewrite run_eq.
  destruct (App.list_currs app); [ discriminate | ].
  assert (Hloop :
            result_of (App.get_conversion (S (S fuel)) app w)
            = Raise (ConversionError t) ->
            t = network_error_of (App.converter app)).
  { destruct (targets_of app) as [targets | ] eqn:Ht.
    - rewrite (get_conversion_eq _ _ _ _ Ht).
      apply (conversion_loop_errors fuel targets []
               (App.set_out_currs (App.OutMany targets) app) w t).
    - unfold targets_of in Ht. unfold App.get_conversion. unfold_py.
      destruct (App.out_currs app) as [[code | ] | l]; discriminate. }
  destruct (App.get_conversion (S (S fuel)) app w) as [[[m | e | ] app'] w'];
    try discriminate.
  unfold result_of in *. cbn [fst snd] in *.
  intros H. apply Hloop. injection H as ->. reflexivity.
Qed.

Lemma init_converter_name (params : Request) (override_converter : string)
      (list_currs : bool) (w : World) (app : App.t) (w1 : World) :
  App.init params override_converter list_currs tt w = (Ret app, tt, w1) ->
  forall config, config_json w = Some config ->
  converter_name (App.converter app)
  = if selects_XE config override_converter then "XE" else "OER".
Proof.
  rewrite init_eq, build_converter_eq. intros H config Hcfg.
  rewrite Hcfg in H. cbv zeta in H.
  destruct (ConverterCommon.load_currencies _ w) as [[[[] | e | ] c] w0];
    try discriminate H.
  destruct list_currs.
  - injection H as <- _. cbn [App.converter].
    destruct (selects_XE config override_converter); reflexivity.
  - destruct (App.check_currency _ (Some (req_in_currency params)) which_in)
      as [[code | ] | e | ];
      try destruct (App.check_currency _ (req_out_currency params) which_out)
        as [out_c | e' | ];
      try discriminate H.
    injection H as <- _. cbn [App.converter].
    destruct (selects_XE config override_converter); reflexivity.
Qed.

Lemma init_selects (params : Request) (override_converter : string)
      (list_currs : bool) (w : World) (app : App.t) (w1 : World) :
  App.init params override_converter list_currs tt w = (Ret app, tt, w1) ->
  exists config,
    config_json w = Some config /\
    converter_name (App.converter app)
    = if selects_XE config override_converter then "XE" else "OER".
Proof.
  intros H.
  destruct (config_json w) as [config | ] eqn:Hcfg.
  - exists config. split; [ reflexivity | ].
    apply (init_converter_name _ _ _ _ _ _ H config Hcfg).
  - rewrite init_eq, build_converter_eq, Hcfg in H. discriminate H.
Qed.

Lemma world_of_wrap_retry (r : outcome (Z * Output) * unit * World) :
  world_of (wrap_retry r) = world_of r.
Proof. destruct r as [[[v | e | ] u] w]; reflexivity. Qed.

(** A call with [first_try=False] makes at most one run. *)
Lemma main_second_try_runs (fuel : nat) (params : Request)
      (override_converter : string) (list_currs : bool) (w : World) :
  let done :=
    main (S (S fuel)) params override_converter list_currs false tt w in
  runs (world_of done) = runs w \/
  exists app w1,
    App.init params override_converter list_currs tt w = (Ret app, tt, w1) /\
    runs (world_of done)
    = EvRun (converter_name (App.converter app)) params :: runs w.
Proof.
  cbv zeta. rewrite main_eq.
  pose proof (init_trace params override_converter list_currs w) as Htr.
  destruct (App.init params override_converter list_currs tt w)
    as [[[app | e | ] []] w1] eqn:Hinit; rewrite world_of_triple in Htr.
  - right. exists app, w1. split; [ reflexivity | ]. cbv zeta.
    pose proof (run_runs fuel app
                  (add_event (EvRun (converter_name (App.converter app)) params)
                             w1)) as Hruns.
    assert (Hone :
              runs (add_event (EvRun (converter_name (App.converter app)) params)
                              w1)
              = EvRun (converter_name (App.converter app)) params :: runs w).
    { unfold runs. simpl. rewrite Htr. reflexivity. }
    rewrite Hone in Hruns.
    destruct (App.run (S (S fuel)) app _) as [[[out | e | ] app'] w3];
      rewrite world_of_triple in Hruns; try exact Hruns.
    destruct (is_ConversionError e); exact Hruns.
  - left. unfold runs.
    destruct (init_error e); rewrite world_of_triple, Htr; reflexivity.
  - left. unfold runs. rewrite world_of_triple, Htr. reflexivity.
Qed.

(** Fallback bound: [main] makes no run, one run, or two runs; when it makes
    two, the second is the retry with the other strategy and both carry the
    request [main] was given. *)
Theorem retry_is_bounded :
  forall (fuel : nat) (params : Request) (override_converter : string)
         (list_currs : bool) (w : World),
    let done :=
      main (S (S (S fuel))) params override_converter list_currs true tt w in
    runs (world_of done) = runs w \/
    (exists strategy, runs (world_of done) = EvRun strategy params :: runs w) \/
    runs (world_of done) = EvRun "OER" params :: EvRun "XE" params :: runs w \/
    runs (world_of done) = EvRun "XE" params :: EvRun "OER" params :: runs w.
Proof.
  intros fuel params ov lc w done. subst done. rewrite main_eq.
  pose proof (init_trace params ov lc w) as Htr.
  destruct (App.init params ov lc tt w) as [[[app | e | ] []] w1] eqn:Hinit;
    rewrite world_of_triple in Htr.
  - cbv zeta.
    set (started := EvRun (converter_name (App.converter app)) params).
    pose proof (run_runs (S fuel) app (add_event started w1)) as Hruns.
    pose proof (run_errors (S fuel) app (add_event started w1)) as Herr.
    assert (Hone : runs (add_event started w1) = started :: runs w).
    { unfold runs. simpl. rewrite Htr. reflexivity. }
    rewrite Hone in Hruns.
    destruct (App.run (S (S (S fuel))) app (add_event started w1))
      as [[[out | e | ] app'] w3];
      rewrite world_of_triple in Hruns.
    + right; left. exists (converter_name (App.converter app)). exact Hruns.
    + rewrite result_of_triple in Herr.
      destruct e as [type | | | | | | | | ];
        try (right; left; exists (converter_name (App.converter app));
             exact Hruns).
      cbn [is_ConversionError error_type_is negb].
      specialize (Herr type eq_refl).
      destruct (String.eqb_spec type "xe_error") as [-> | Nxe].
      * rewrite world_of_wrap_retry.
        assert (Hname : converter_name (App.converter app) = "XE").
        { destruct (App.converter app); [ reflexivity | discriminate Herr ]. }
        destruct (main_second_try_runs fuel params "oer" false w3)
          as [Hnone | (app2 & w4 & Hinit2 & Htwo)]; cbv zeta in *.
        -- right; left. exists (converter_name (App.converter app)).
           rewrite Hnone. exact Hruns.
        -- right; right; left. rewrite Htwo, Hruns. subst started.
           destruct (init_selects _ _ _ _ _ _ Hinit2) as (config & _ & Hsel).
           rewrite Hsel, Hname. reflexivity.
      * destruct (String.eqb_spec type "oer_error") as [-> | Noer].
        -- rewrite world_of_wrap_retry.
           assert (Hname : converter_name (App.converter app) = "OER").
           { destruct (App.converter app);
               [ discriminate Herr | reflexivity ]. }
           destruct (main_second_try_runs fuel params "xe" false w3)
             as [Hnone | (app2 & w4 & Hinit2 & Htwo)]; cbv zeta in *.
           ++ right; left. exists (converter_name (App.converter app)).
              rewrite Hnone. exact Hruns.
           ++ right; right; right. rewrite Htwo, Hruns. subst started.
              destruct (init_selects _ _ _ _ _ _ Hinit2)
                as (config & _ & Hsel).
              rewrite Hsel, Hname. reflexivity.
        -- right; left. exists (converter_name (App.converter app)).
           exact Hruns.
    + right; left. exists (converter_name (App.converter app)). exact Hruns.
  - left. unfold runs.
    destruct (init_error e); rewrite world_of_triple, Htr; reflexivity.
  - left. unfold runs. rewrite world_of_triple, Htr. reflexivity.
Qed.

Lemma OER_convert_depth_one_witness :
  trace (world_of (ConverterOER.convert
                     2 (mkParams 100%float "EUR" "GBP") sample_oer world_fresh))
  = [ EvConvert "OER"
                (mkParams (PrimFloat.div 100%float 0.9%float) "USD" "GBP");
      EvConvert "OER" (mkParams 100%float "EUR" "GBP") ].
Proof.
  apply (proj2 (proj2 (proj2 (OER_convert_depth_one
                                0 (mkParams 100%float "EUR" "GBP")
                                sample_oer world_fresh)))
               sample_rates 0.9%float);
    try reflexivity; discriminate.
Defined.

Lemma XE_convert_integrity_witness :
  result_of (ConverterXE.convert (mkParams 100%float "EUR" "GBP")
                                 sample_xe world_xe_online)
  = Ret 88.89%float /\
  result_of (ConverterXE.convert (mkParams 100%float "EUR" "BTC")
                                 sample_xe world_xe_online)
  = Raise (ConversionError "unsupported") /\
  result_of (ConverterXE.convert (mkParams 100%float "EUR" "GBP")
                                 sample_xe world_stale)
  = Raise (ConversionError "xe_error").
Proof.
  split; [ | split ].
  - apply (proj1 (XE_convert_integrity (mkParams 100%float "EUR" "GBP")
                                       sample_xe world_xe_online)
                 (mkXEResponse 88.89%float ("EUR", "GBP")));
      reflexivity.
  - apply (proj1 (proj2 (XE_convert_integrity
                           (mkParams 100%float "EUR" "BTC")
                           sample_xe world_xe_online))
                 (mkXEResponse 88.89%float ("EUR", "USD")));
      [ reflexivity | right; discriminate ].
  - apply (proj1 (proj2 (proj2 (XE_convert_integrity
                                  (mkParams 100%float "EUR" "GBP")
                                  sample_xe world_stale)))).
    reflexivity.
Defined.

(* ===================================================================== *)
(** * More on the two loaders                                            *)
(* ===================================================================== *)

(** A cache that parses, carries its payload and is not older than the
    window is used as it is: the loader returns its payload, reads the clock
    once, writes no file and does not depend on the remote service. *)
Theorem fresh_cache_is_used :
  (forall (self : ConverterCommon.t) (w : World) (t : float)
          (payload : dict CurrencyEntry),
      cache_currencies_json w = envelope t payload ->
      PrimFloat.ltb (ConverterCommon.curr_exp self)
                    (PrimFloat.sub (clock w (ticks w)) t) = false ->
      ConverterCommon.load_currencies self w =
      (Ret tt, ConverterCommon.set_currencies payload self,
       set_ticks (S (ticks w)) w))
  /\
  (forall (self : ConverterOER.t) (w : World) (t : float)
          (payload : dict float),
      cache_rates_json w = envelope t payload ->
      PrimFloat.ltb (ConverterOER.rates_exp self)
                    (PrimFloat.sub (clock w (ticks w)) t) = false ->
      ConverterOER.load_rates self w =
      (Ret tt, ConverterOER.set_rates payload self,
       set_ticks (S (ticks w)) w)).
Proof.
  split; intros self w t payload Hfile Hnew.
  - rewrite load_currencies_eq. cbv zeta. rewrite Hfile.
    unfold envelope, cache_check, after_check. rewrite Hnew. reflexivity.
  - rewrite load_rates_eq. cbv zeta. rewrite Hfile.
    unfold envelope, cache_check, after_check. rewrite Hnew. reflexivity.
Qed.

Lemma fresh_cache_is_used_witness :
  ConverterCommon.load_currencies sample_common world_fresh =
  (Ret tt, ConverterCommon.set_currencies sample_directory sample_common,
   set_ticks 1 world_fresh)
  /\
  ConverterOER.load_rates sample_oer world_fresh =
  (Ret tt, ConverterOER.set_rates sample_rates sample_oer,
   set_ticks 1 world_fresh).
Proof.
  split.
  - apply (proj1 fresh_cache_is_used sample_common world_fresh 999900%float
                 sample_directory); reflexivity.
  - apply (proj2 fresh_cache_is_used sample_oer world_fresh 999900%float
                 sample_rates); reflexivity.
Defined.

(** Whenever a loader returns, the cache file on disk parses, carries a
    numeric timestamp and holds exactly the data the object now has in
    memory: whether it was read from the cache, fetched and saved, or (for
    the directory) adopted from an outdated cache. *)
Theorem loaded_data_is_on_disk :
  (forall (self : ConverterCommon.t) (w : World),
      let done := ConverterCommon.load_currencies self w in
      result_of done = Ret tt ->
      exists t,
        cache_currencies_json (world_of done)
        = envelope t (ConverterCommon.currencies (self_of done)))
  /\
  (forall (self : ConverterOER.t) (w : World),
      let done := ConverterOER.load_rates self w in
      result_of done = Ret tt ->
      exists t R,
        ConverterOER.rates (self_of done) = Some R /\
        cache_rates_json (world_of done) = envelope t R).
Proof.
  split; intros self w done; subst done.
  - rewrite load_currencies_eq. cbv zeta. unfold cache_check, after_check.
    destruct (cache_currencies_json w)
      as [ | | [ | [ [t | ] | ] [payload | ] ] ] eqn:Hfile;
      try destruct (PrimFloat.ltb _ _);
      destruct (remote_currencies w) as [response | ];
      rewrite ?result_of_triple, ?self_of_triple, ?world_of_triple;
      intros H; try discriminate H;
      try (eexists; reflexivity);
      exists t; simpl; rewrite Hfile; reflexivity.
  - rewrite load_rates_eq. cbv zeta. unfold cache_check, after_check.
    destruct (cache_rates_json w)
      as [ | | [ | [ [t | ] | ] [payload | ] ] ] eqn:Hfile;
      try destruct (PrimFloat.ltb _ _);
      destruct (remote_rates w (ConverterOER.app_id self)) as [response | ];
      rewrite ?result_of_triple, ?self_of_triple, ?world_of_triple;
      intros H; try discriminate H;
      try (eexists _, _; split; reflexivity);
      exists t, payload; simpl; rewrite Hfile; split; reflexivity.
Qed.

Lemma loaded_data_is_on_disk_witness :
  exists t,
    cache_currencies_json
      (world_of (ConverterCommon.load_currencies sample_common world_stale))
    = envelope t
        (ConverterCommon.currencies
           (self_of (ConverterCommon.load_currencies sample_common world_stale))).
Proof.
  apply (proj1 loaded_data_is_on_disk sample_common world_stale).
  reflexivity.
Defined.

(** Round trip through the cache files.  The directory one object saves is
    what another object loads, without a request, as long as the clock has
    not moved past the window since the save.  The rates a refresh saved are
    loaded back likewise, the window being counted from the timestamp the
    OER answer carried. *)
Theorem saved_cache_loads_back :
  (forall (self other : ConverterCommon.t) (w : World),
      let w1 := world_of (ConverterCommon.save_currencies self w) in
      PrimFloat.ltb (ConverterCommon.curr_exp other)
                    (PrimFloat.sub (clock w1 (ticks w1)) (clock w (ticks w)))
      = false ->
      ConverterCommon.load_currencies other w1 =
      (Ret tt,
       ConverterCommon.set_currencies (ConverterCommon.currencies self) other,
       set_ticks (S (ticks w1)) w1))
  /\
  (forall (self other : ConverterOER.t) (w : World) (response : OERResponse),
      let w1 := world_of (ConverterOER.save_rates response self w) in
      PrimFloat.ltb (ConverterOER.rates_exp other)
                    (PrimFloat.sub (clock w1 (ticks w1))
                                   (resp_timestamp response))
      = false ->
      ConverterOER.load_rates other w1 =
      (Ret tt, ConverterOER.set_rates (resp_rates response) other,
       set_ticks (S (ticks w1)) w1)).
Proof.
  split.
  - intros self other w w1 Hnew. subst w1.
    rewrite load_currencies_eq. cbv zeta.
    unfold ConverterCommon.save_currencies in *. unfold_py.
    simpl in *. rewrite Hnew. reflexivity.
  - intros self other w response w1 Hnew. subst w1.
    rewrite load_rates_eq. cbv zeta.
    unfold ConverterOER.save_rates in *. unfold_py.
    simpl in *. rewrite Hnew. reflexivity.
Qed.

Lemma saved_cache_loads_back_witness :
  ConverterCommon.load_currencies
    sample_common
    (world_of (ConverterCommon.save_currencies
                 (ConverterCommon.set_currencies sample_directory sample_common)
                 world_stale))
  = (Ret tt, ConverterCommon.set_currencies sample_directory sample_common,
     set_ticks 2
       (world_of (ConverterCommon.save_currencies
                    (ConverterCommon.set_currencies sample_directory
                                                    sample_common)
                    world_stale))).
Proof.
  apply (proj1 saved_cache_loads_back
               (ConverterCommon.set_currencies sample_directory sample_common)
               sample_common world_stale).
  reflexivity.
Defined.

(* ===================================================================== *)
(** * The directory: fetching and resolving                              *)
(* ===================================================================== *)

Lemma dict_get_app {V} (d d' : dict V) (k : string) :
  dict_get (d ++ d') k =
  match dict_get d k with
  | Some v => Some v
  | None => dict_get d' k
  end.
Proof.
  induction d as [ | [k0 v0] d IH]; simpl.
  - reflexivity.
  - destruct (String.eqb k0 k); [ reflexivity | exact IH ].
Qed.

Lemma dict_set_new {V} (d : dict V) (k : string) (v : V) :
  dict_get d k = None -> dict_set d k v = d ++ [(k, v)].
Proof.
  induction d as [ | [k0 v0] d IH]; simpl.
  - reflexivity.
  - destruct (String.eqb k0 k); [ discriminate | ].
    intros H. rewrite (IH H). reflexivity.
Qed.

Lemma merge_currencies_get (response : dict CurrencyEntry) :
  forall (d : dict CurrencyEntry) (k : string),
    dict_get (merge_currencies d response) k =
    match last_value response k with
    | Some e => Some e
    | None => dict_get d k
    end.
Proof.
  unfold merge_currencies, last_value.
  induction response as [ | [k0 e0] rest IH]; intros d k; simpl.
  - reflexivity.
  - rewrite IH, dict_get_app, dict_get_set. simpl.
    destruct (dict_get (rev rest) k); [ reflexivity | ].
    destruct (String.eqb k0 k); [ destruct e0; reflexivity | reflexivity ].
Qed.

Lemma merge_currencies_distinct (response : dict CurrencyEntry) :
  forall d : dict CurrencyEntry,
    NoDup (dict_keys response) ->
    (forall k, In k (dict_keys response) -> dict_get d k = None) ->
    merge_currencies d response = d ++ response.
Proof.
  unfold merge_currencies.
  induction response as [ | [k0 e0] rest IH]; intros d Hnd Hnew; simpl.
  - rewrite app_nil_r. reflexivity.
  - inversion Hnd as [ | ? ? Hnotin Hnd' ]; subst.
    rewrite (dict_set_new d k0 _ (Hnew k0 (or_introl eq_refl))).
    rewrite IH.
    + rewrite <- app_assoc. destruct e0; reflexivity.
    + exact Hnd'.
    + intros k Hk. rewrite dict_get_app, (Hnew k (or_intror Hk)). simpl.
      destruct (String.eqb_spec k0 k) as [-> | _];
        [ contradiction | reflexivity ].
Qed.

(** [get_currencies] stores the answer of the service: afterwards a code
    maps to the symbol and name the answer gives it (the last ones, should
    the answer list a code twice) and any other code keeps its entry.  An
    answer with distinct codes, none known before, is appended in its order:
    on the empty directory [__init__] starts with, the directory becomes the
    answer itself.  A failed request raises and leaves the directory as it
    was.  The world is not changed. *)
Theorem get_currencies_stores_answer :
  (forall (self : ConverterCommon.t) (w : World)
          (response : dict CurrencyEntry),
      remote_currencies w = Some response ->
      let done := ConverterCommon.get_currencies self w in
      result_of done = Ret tt /\ world_of done = w /\
      (forall k,
          dict_get (ConverterCommon.currencies (self_of done)) k =
          match last_value response k with
          | Some e => Some e
          | None => dict_get (ConverterCommon.currencies self) k
          end) /\
      (NoDup (dict_keys response) ->
       (forall k, In k (dict_keys response) ->
                  dict_get (ConverterCommon.currencies self) k = None) ->
       ConverterCommon.currencies (self_of done)
       = ConverterCommon.currencies self ++ response))
  /\
  (forall (self : ConverterCommon.t) (w : World),
      remote_currencies w = None ->
      ConverterCommon.get_currencies self w = (Raise RequestError, self, w)).
Proof.
  split.
  - intros self w response Hfetch done. subst done.
    unfold ConverterCommon.get_currencies. unfold_py. rewrite Hfetch.
    fold (merge_currencies (ConverterCommon.currencies self) response).
    simpl. repeat split.
    + intros k. apply merge_currencies_get.
    + intros Hnd Hnew. apply merge_currencies_distinct; assumption.
  - intros self w Hfetch.
    unfold ConverterCommon.get_currencies. unfold_py. rewrite Hfetch.
    reflexivity.
Qed.

Lemma get_currencies_stores_answer_witness :
  ConverterCommon.currencies
    (self_of (ConverterCommon.get_currencies sample_common world_directory_online))
  = sample_directory.
Proof.
  apply (proj2 (proj2 (proj2 (proj1 get_currencies_stores_answer
                                    sample_common world_directory_online
                                    sample_directory eq_refl)))).
  - repeat constructor; simpl; intuition discriminate.
  - reflexivity.
Defined.














(* ===================================================================== *)
(** * The rate-table strategy: failures and the table it keeps           *)
(* ===================================================================== *)








(* ===================================================================== *)
(** * The keys of the output map                                         *)
(* ===================================================================== *)

Lemma dict_mem_keys {V} (d : dict V) (k : string) :
  dict_mem d k = true <-> In k (dict_keys d).
Proof.
  unfold dict_mem, dict_keys.
  induction d as [ | [k0 v0] d IH]; simpl.
  - split; [ discriminate | contradiction ].
  - destruct (String.eqb_spec k0 k) as [-> | N].
    + split; auto.
    + rewrite IH. split; [ auto | ]. intros [H | H]; [ contradiction | exact H ].
Qed.

Lemma dict_keys_set {V} (d : dict V) (k : string) (v : V) :
  dict_keys (dict_set d k v) =
  if dict_mem d k then dict_keys d else dict_keys d ++ [k].
Proof.
  unfold dict_mem, dict_keys.
  induction d as [ | [k0 v0] d IH]; simpl.
  - reflexivity.
  - destruct (String.eqb k0 k); simpl; [ reflexivity | ].
    rewrite IH. destruct (dict_get d k); reflexivity.
Qed.

Lemma dict_set_keys_NoDup {V} (d : dict V) (k : string) (v : V) :
  NoDup (dict_keys d) -> NoDup (dict_keys (dict_set d k v)).
Proof.
  intros Hnd. rewrite dict_keys_set.
  destruct (dict_mem d k) eqn:E; [ exact Hnd | ].
  apply NoDup_app; [ exact Hnd | repeat constructor; intros [] | ].
  intros x Hx [<- | []].
  apply dict_mem_keys in Hx. rewrite Hx in E. discriminate E.
Qed.

Lemma dict_set_keys_In {V} (d : dict V) (k k' : string) (v : V) :
  In k' (dict_keys (dict_set d k v)) -> In k' (dict_keys d) \/ k' = k.
Proof.
  rewrite dict_keys_set. destruct (dict_mem d k); [ auto | ].
  intros H. apply in_app_or in H. destruct H as [H | [H | []]]; auto.
Qed.

Lemma conversion_loop_keys (fuel : nat) (targets : list string) :
  forall (converted : dict float) (app : App.t) (w : World) (m : dict float),
    NoDup (dict_keys converted) ->
    result_of (App.conversion_loop fuel targets converted app w) = Ret m ->
    NoDup (dict_keys m) /\
    forall k, In k (dict_keys m) ->
              In k (dict_keys converted) \/ In k targets.
Proof.
  induction targets as [ | curr rest IH]; intros converted app w m Hnd Hres.
  - injection Hres as <-. auto.
  - rewrite conversion_loop_cons in Hres.
    assert (Hset :
              forall v app' w',
                result_of (App.conversion_loop fuel rest
                             (dict_set converted curr v) app' w') = Ret m ->
                NoDup (dict_keys m) /\
                forall k, In k (dict_keys m) ->
                          In k (dict_keys converted) \/ In k (curr :: rest)).
    { intros v app' w' Hr.
      destruct (IH _ app' w' m (dict_set_keys_NoDup converted curr v Hnd) Hr)
        as [Hm Hin].
      split; [ exact Hm | ].
      intros k Hk. destruct (Hin k Hk) as [H | H].
      - destruct (dict_set_keys_In _ _ _ _ H) as [H' | ->];
          [ auto | right; left; reflexivity ].
      - right. right. exact H. }
    destruct (String.eqb curr (App.in_currency app));
      [ exact (Hset _ _ _ Hres) | ].
    destruct (converter_convert fuel _ (App.converter app) w)
      as [[[v | e | ] c'] w'].
    + exact (Hset _ _ _ Hres).
    + destruct (error_type_is "unsupported" e); [ | discriminate Hres ].
      destruct (IH _ _ _ m Hnd Hres) as [Hm Hin].
      split; [ exact Hm | ].
      intros k Hk. destruct (Hin k Hk) as [H | H]; [ auto | ].
      right. right. exact H.
    + discriminate Hres.
Qed.

(** The output map holds requested currencies only, each once: its keys are
    among the targets of the loop and are pairwise distinct, also when the
    override list of the configuration names a code twice.  So the map is
    never longer than the list of targets. *)
Theorem output_keys_are_targets :
  forall (fuel : nat) (app : App.t) (w : World) (targets : list string)
         (m : dict float),
    targets_of app = Some targets ->
    result_of (App.get_conversion fuel app w) = Ret m ->
    NoDup (dict_keys m) /\
    incl (dict_keys m) targets /\
    length m <= length targets.
Proof.
  intros fuel app w targets m Ht Hm.
  rewrite (get_conversion_eq _ _ _ _ Ht) in Hm.
  destruct (conversion_loop_keys fuel targets [] _ w m (NoDup_nil _) Hm)
    as [Hnd Hin].
  assert (Hincl : incl (dict_keys m) targets).
  { intros k Hk. destruct (Hin k Hk) as [[] | H]. exact H. }
  repeat split; [ exact Hnd | exact Hincl | ].
  replace (length m) with (length (dict_keys m))
    by (unfold dict_keys; apply length_map).
  apply NoDup_incl_length; assumption.
Qed.

Lemma output_keys_are_targets_witness :
  NoDup ["USD"; "EUR"; "GBP"] /\
  incl ["USD"; "EUR"; "GBP"] ["USD"; "EUR"; "EUR"; "BTC"; "GBP"; "USD"] /\
  3 <= 6.
Proof.
  exact (output_keys_are_targets
           2 (sample_app_override 0.125%float "USD") world_fresh
           ["USD"; "EUR"; "EUR"; "BTC"; "GBP"; "USD"]
           [ ("USD", 0.125%float); ("EUR", 0.11%float); ("GBP", 0.1%float) ]
           eq_refl eq_refl).
Defined.

(* ===================================================================== *)
(** * How [main] ends                                                    *)
(* ===================================================================== *)



Lemma check_currency_in_outcomes (d : dict CurrencyEntry) (s : string) :
  (exists code, App.check_currency d (Some s) which_in = Ret (Some code)) \/
  App.check_currency d (Some s) which_in = Raise ValueError.
Proof.
  unfold App.check_currency.
  destruct (dict_mem d s); [ eauto | ].
  destruct (App.find_symbol s d); eauto.
Qed.

Lemma check_currency_out_outcomes (d : dict CurrencyEntry)
      (s : option string) :
  exists o, App.check_currency d s which_out = Ret o.
Proof.
  unfold App.check_currency.
  destruct s as [s | ]; [ | eauto ].
  destruct (dict_mem d s); [ eauto | ].
  destruct (App.find_symbol s d); eauto.
Qed.





Lemma init_failure_severity (e : exn) :
  severity (fst (init_failure e)) (snd (init_failure e)).
Proof. unfold severity. destruct e; simpl; eauto. Qed.








(** Listing the currencies.  Once the configuration and the directory are
    loaded, [main] with [list_currs] returns severity 0 and one record per
    entry of the directory, in the order of the directory, with the entry's
    code, symbol and name.  The request is not looked at (any input
    currency will do), no strategy is called, no clock is read and no file
    is written after the directory was loaded. *)
Theorem listing_returns_directory :
  forall (fuel : nat) (params : Request) (override_converter : string)
         (first_try : bool) (w : World)
         (config : Config) (converter : Converter) (w1 : World),
    build_converter override_converter tt w
    = (Ret (config, converter), tt, w1) ->
    main (S fuel) params override_converter true first_try tt w
    = (Ret (0%Z,
            Plain (RunCurrencies
                     (map (fun kv => (fst kv, symbol (snd kv), name (snd kv)))
                          (converter_currencies converter)))),
       tt,
       add_event (EvRun (converter_name converter) params) w1).
Proof.
  intros fuel params ov first_try w config converter w1 Hbuild.
  rewrite main_eq, init_eq, Hbuild. cbv zeta.
  rewrite run_eq. reflexivity.
Qed.

Lemma listing_returns_directory_witness :
  main 1 (mkRequest 0%float "no such currency" None) "" true true tt
       world_fresh
  = (Ret (0%Z,
          Plain (RunCurrencies
                   [ ("USD", "$", "US Dollar"); ("EUR", "E", "Euro");
                     ("GBP", "L", "British Pound Sterling");
                     ("BTC", "B", "Bitcoin") ])),
     tt,
     add_event (EvRun "OER" (mkRequest 0%float "no such currency" None))
               (set_ticks 1 world_fresh)).
Proof.
  exact (listing_returns_directory
           0 (mkRequest 0%float "no such currency" None) "" true world_fresh
           (sample_config "ConverterOER") (OER sample_oer)
           (set_ticks 1 world_fresh) eq_refl).
Defined.

(* ===================================================================== *)
(** * The view [convert] of the web layer                                *)
(* ===================================================================== *)



(* ===================================================================== *)
(** * What a successful answer holds                                     *)
(* ===================================================================== *)

(** When [main] returns severity 0 with the JSON text of a run, that run
    was a conversion, and its record echoes the request: the amount is the
    one given, unchanged; the input currency is the code the input token
    resolved to in the directory that was loaded; and the keys of the output
    map are among the targets: the resolved output code alone if there is
    one, otherwise the override list of the configuration if it has one,
    otherwise the codes of the directory. *)
Theorem answer_echoes_request :
  forall (fuel : nat) (params : Request) (override_converter : string)
         (list_currs first_try : bool) (w : World) (r : RunResult),
    result_of (main (S fuel) params override_converter list_currs first_try
                    tt w) = Ret (0%Z, Json r) ->
    list_currs = false /\
    exists config converter w1 code out_c conv,
      build_converter override_converter tt w
      = (Ret (config, converter), tt, w1) /\
      App.check_currency (converter_currencies converter)
                         (Some (req_in_currency params)) which_in
      = Ret (Some code) /\
      App.check_currency (converter_currencies converter)
                         (req_out_currency params) which_out
      = Ret out_c /\
      r = RunConversion conv /\
      input_amount conv = req_amount params /\
      input_currency conv = code /\
      incl (dict_keys (output conv))
           match out_c, cfg_override_currencies config with
           | Some c, _ => [c]
           | None, Some override => override
           | None, None => dict_keys (converter_currencies converter)
           end.
Proof.
  intros fuel params ov list_currs first_try w r.
  rewrite main_eq, init_eq.
  destruct (build_converter ov tt w)
    as [[[[config converter] | e | ] []] w1];
    [ | destruct (init_error e); rewrite result_of_triple;
        [ destruct e | ]; simpl; discriminate
      | rewrite result_of_triple; discriminate ].
  destruct list_currs.
  { cbv zeta.
    destruct (App.run (S fuel) _ _) as [[[out | e | ] app'] w3].
    - rewrite result_of_triple. discriminate.
    - destruct (is_ConversionError e);
        [ | rewrite result_of_triple; discriminate ].
      destruct first_try; cbn [negb];
        [ | rewrite result_of_triple; discriminate ].
      destruct (error_type_is "xe_error" e);
        [ destruct (main fuel params "oer" false false tt w3)
            as [[[x | x | ] []] w4]; simpl; discriminate | ].
      destruct (error_type_is "oer_error" e);
        [ destruct (main fuel params "xe" false false tt w3)
            as [[[x | x | ] []] w4]; simpl; discriminate | ].
      rewrite result_of_triple. discriminate.
    - rewrite result_of_triple. discriminate. }
  destruct (check_currency_out_outcomes (converter_currencies converter)
                                        (req_out_currency params))
    as [out_c Hout].
  rewrite Hout.
  destruct (check_currency_in_outcomes (converter_currencies converter)
                                       (req_in_currency params))
    as [[code Hin] | Hin]; rewrite Hin;
    [ | cbn [init_error init_failure]; rewrite result_of_triple;
        discriminate ].
  cbv zeta. rewrite run_eq. cbn [App.list_currs].
  set (app := App.mk config converter false (req_amount params) code
                     (App.OutOne out_c)).
  set (w2 := add_event (EvRun (converter_name (App.converter app)) params) w1).
  set (targets := match out_c, cfg_override_currencies config with
                  | Some c, _ => [c]
                  | None, Some override => override
                  | None, None => dict_keys (converter_currencies converter)
                  end).
  assert (Ht : targets_of app = Some targets).
  { unfold targets_of, all_targets, targets. simpl.
    destruct out_c; [ reflexivity | ].
    destruct (cfg_override_currencies config); reflexivity. }
  pose proof (conversion_loop_keys (S fuel) targets []
                (App.set_out_currs (App.OutMany targets) app) w2) as Hkeys.
  rewrite <- (get_conversion_eq _ _ _ _ Ht) in Hkeys.
  destruct (App.get_conversion (S fuel) app w2) as [[[m | e | ] app'] w3].
  - rewrite result_of_triple. cbn [negb]. intros H. injection H as <-.
    split; [ reflexivity | ].
    exists config, converter, w1, code, out_c,
      (mkConversion (req_amount params) code m).
    repeat split; try reflexivity; try assumption.
    intros k Hk.
    destruct (Hkeys m (NoDup_nil _) eq_refl) as [_ Hin'].
    destruct (Hin' k Hk) as [[] | H]. exact H.
  - destruct (is_ConversionError e);
      [ | rewrite result_of_triple; discriminate ].
    destruct first_try; cbn [negb];
      [ | rewrite result_of_triple; discriminate ].
    destruct (error_type_is "xe_error" e);
      [ destruct (main fuel params "oer" false false tt w3)
          as [[[x | x | ] []] w4]; simpl; discriminate | ].
    destruct (error_type_is "oer_error" e);
      [ destruct (main fuel params "xe" false false tt w3)
          as [[[x | x | ] []] w4]; simpl; discriminate | ].
    rewrite result_of_triple. discriminate.
  - rewrite result_of_triple. discriminate.
Qed.

Lemma answer_echoes_request_witness :
  false = false /\
  exists config converter w1 code out_c conv,
    build_converter "" tt world_fresh = (Ret (config, converter), tt, w1) /\
    App.check_currency (converter_currencies converter) (Some "E") which_in
    = Ret (Some code) /\
    App.check_currency (converter_currencies converter) (Some "L") which_out
    = Ret out_c /\
    RunConversion (mkConversion 100%float "EUR" [ ("GBP", 88.89%float) ])
    = RunConversion conv /\
    input_amount conv = 100%float /\
    input_currency conv = code /\
    incl (dict_keys (output conv))
         match out_c, cfg_override_currencies config with
         | Some c, _ => [c]
         | None, Some override => override
         | None, None => dict_keys (converter_currencies converter)
         end.
Proof.
  exact (answer_echoes_request
           2 (mkRequest 100%float "E" (Some "L")) "" false true world_fresh
           (RunConversion
              (mkConversion 100%float "EUR" [ ("GBP", 88.89%float) ]))
           eq_refl).
Defined.

(* ===================================================================== *)
(** * The requests of a run with the scrape strategy                     *)
(* ===================================================================== *)

Lemma calls_for_cons (app : App.t) (curr : string) (made : list string)
      (tr : list Event) :
  calls_for app (curr :: made) ++ tr
  = calls_for app made
      ++ EvConvert (converter_name (App.converter app))
                   (target_params app curr) :: tr.
Proof.
  unfold calls_for. simpl. rewrite <- app_assoc. reflexivity.
Qed.

Lemma calls_for_XE (app : App.t) (x : ConverterXE.t) (made : list string) :
  App.converter app = XE x ->
  calls_for app made
  = rev (map (fun curr => EvConvert "XE" (target_params app curr)) made).
Proof. unfold calls_for. intros ->. reflexivity. Qed.

Lemma conversion_loop_XE_calls (fuel : nat) (targets : list string) :
  forall (converted : dict float) (app : App.t) (w : World)
         (x : ConverterXE.t),
    App.converter app = XE x ->
    let done := App.conversion_loop fuel targets converted app w in
    exists made rest,
      asked_targets app targets = made ++ rest /\
      trace (world_of done) = calls_for app made ++ trace w /\
      ((exists m, result_of done = Ret m) -> rest = []) /\
      (forall e, result_of done = Raise e ->
                 e = ConversionError "xe_error" /\ made <> []).
Proof.
  induction targets as [ | curr targets IH]; intros converted app w x Hx done;
    subst done.
  - exists [], []. repeat split; intros; discriminate.
  - rewrite conversion_loop_cons. unfold asked_targets. cbn [filter].
    fold (asked_targets app targets).
    destruct (String.eqb curr (App.in_currency app)); cbn [negb].
    + apply (IH _ app w x Hx).
    + rewrite Hx. unfold converter_convert. rewrite XE_convert_eq. cbv zeta.
      set (x' := ConverterXE.mk (ConverterXE.common x) _).
      set (w' := add_event (EvConvert ConverterXE.name (target_params app curr))
                           w).
      assert (Hstep :
                forall acc,
                exists made rest,
                  curr :: asked_targets app targets = made ++ rest /\
                  trace (world_of
                           (App.conversion_loop fuel targets acc
                              (App.set_converter_field (XE x') app) w'))
                  = calls_for app made ++ trace w /\
                  ((exists m,
                       result_of
                         (App.conversion_loop fuel targets acc
                            (App.set_converter_field (XE x') app) w')
                       = Ret m) -> rest = []) /\
                  (forall e,
                      result_of
                        (App.conversion_loop fuel targets acc
                           (App.set_converter_field (XE x') app) w')
                      = Raise e ->
                      e = ConversionError "xe_error" /\ made <> [])).
      { intros acc.
        destruct (IH acc (App.set_converter_field (XE x') app) w' x' eq_refl)
          as (made & rest & Hsplit & Htr & Hret & Hraise).
        exists (curr :: made), rest.
        split; [ | split; [ | split ] ].
        - change (asked_targets (App.set_converter_field (XE x') app) targets)
            with (asked_targets app targets) in Hsplit.
          rewrite Hsplit. reflexivity.
        - rewrite Htr, calls_for_cons.
          rewrite (calls_for_XE (App.set_converter_field (XE x') app) x' made
                                eq_refl).
          rewrite (calls_for_XE app x made Hx), Hx. reflexivity.
        - exact Hret.
        - intros e He. split; [ exact (proj1 (Hraise e He)) | discriminate ]. }
      destruct (remote_xe w _) as [response | ].
      * destruct (_ && _)%bool; cbn [error_type_is String.eqb Ascii.eqb Bool.eqb];
          apply Hstep.
      * cbn [error_type_is String.eqb Ascii.eqb Bool.eqb].
        exists [curr], (asked_targets app targets).
        rewrite world_of_triple, result_of_triple.
        split; [ reflexivity | split; [ | split ] ].
        -- unfold calls_for. rewrite Hx. reflexivity.
        -- intros [m Hm]. discriminate Hm.
        -- intros e He. injection He as <-. split; [ reflexivity | discriminate ].
Qed.

(** One request per target.  With the scrape strategy, [get_conversion]
    calls the strategy once for each target other than the input currency,
    in the order of the targets and as often as a target is listed.  When it
    returns, every such target was asked for; when it raises, the error is
    'xe_error', and the calls made are those up to the target whose request
    failed: no later target is tried, and the entries gathered so far are
    not returned. *)
Theorem XE_one_request_per_target :
  forall (fuel : nat) (app : App.t) (w : World) (x : ConverterXE.t)
         (targets : list string),
    App.converter app = XE x ->
    targets_of app = Some targets ->
    let done := App.get_conversion fuel app w in
    exists made rest,
      asked_targets app targets = made ++ rest /\
      trace (world_of done) = calls_for app made ++ trace w /\
      ((exists m, result_of done = Ret m) -> rest = []) /\
      (forall e, result_of done = Raise e ->
                 e = ConversionError "xe_error" /\ made <> []).
Proof.
  intros fuel app w x targets Hx Ht done. subst done.
  rewrite (get_conversion_eq _ _ _ _ Ht).
  apply (conversion_loop_XE_calls fuel targets []
           (App.set_out_currs (App.OutMany targets) app) w x Hx).
Qed.

Lemma XE_one_request_per_target_witness :
  exists made rest,
    ["USD"; "GBP"; "BTC"] = made ++ rest /\
    trace (world_of (App.get_conversion 2 (sample_app_xe 100%float "EUR")
                                        world_xe_online))
    = calls_for (sample_app_xe 100%float "EUR") made ++ [] /\
    ((exists m,
         result_of (App.get_conversion 2 (sample_app_xe 100%float "EUR")
                                       world_xe_online) = Ret m) ->
     rest = []) /\
    (forall e,
        result_of (App.get_conversion 2 (sample_app_xe 100%float "EUR")
                                      world_xe_online) = Raise e ->
        e = ConversionError "xe_error" /\ made <> []).
Proof.
  exact (XE_one_request_per_target
           2 (sample_app_xe 100%float "EUR") world_xe_online sample_xe
           ["USD"; "EUR"; "GBP"; "BTC"] eq_refl eq_refl).
Defined.
